(** * UsbSelector8: the routing state machine of [main.py]

    A shallow embedding of the MicroPython program that switches one USB
    keyboard/mouse pair between eight PCs.  Every IC driver class of the
    source becomes a module with a record of its pin levels and its methods;
    the methods run in a small state monad that records the state after
    every single write, so that the order of the pin writes inside one
    routing sequence can be observed. *)

From stdpp Require Import base gmap list strings.
From Stdlib Require Import ZArith Lia.
Local Open Scope Z_scope.

(** ** Execution monad: state, Python exceptions and a trace of snapshots *)

Inductive PyExc := IndexError | ValueError.

Record Run (S A : Type) := MkRun {
  result : PyExc + A;      (* the value returned, or the exception raised *)
  final  : S;              (* the state when the call ends                *)
  trace  : list S          (* the state after each write, oldest first    *)
}.
Arguments MkRun {S A} _ _ _.
Arguments result {S A} _.
Arguments final {S A} _.
Arguments trace {S A} _.

Definition M (S A : Type) : Type := S -> Run S A.

Definition ret {S A} (a : A) : M S A := fun s => MkRun (inr a) s [].

Definition bind {S A B} (m : M S A) (k : A -> M S B) : M S B :=
  fun s =>
    let r := m s in
    match result r with
    | inl e => MkRun (inl e) (final r) (trace r)
    | inr a =>
        let r' := k a (final r) in
        MkRun (result r') (final r') (trace r ++ trace r')
    end.

#[global] Instance M_ret S : MRet (M S) := @ret S.
#[global] Instance M_bind S : MBind (M S) := fun A B k m => bind m k.

Definition raise {S A} (e : PyExc) : M S A := fun s => MkRun (inl e) s [].

Definition gets {S A} (f : S -> A) : M S A := fun s => MkRun (inr (f s)) s [].

(** One assignment or one pin write: the state changes and is sampled. *)
Definition write {S} (f : S -> S) : M S unit :=
  fun s => MkRun (inr ()) (f s) [f s].

(** Run a method of an owned device [D] inside its owner [S]. *)
Definition zoom {S D A} (get : S -> D) (put : D -> S -> S) (m : M D A) : M S A :=
  fun s =>
    let r := m (get s) in
    MkRun (result r) (put (final r) s) ((fun d => put d s) <$> trace r).

(** ** Python primitives used by the program *)

(** Truth value of an integer, as [if x:] takes it. *)
Definition truthy (x : Z) : bool := negb (x =? 0).

(** [a << n]: a negative shift count raises ValueError. *)
Definition py_lshift {S} (a n : Z) : M S Z :=
  if n <? 0 then raise ValueError else ret (Z.shiftl a n).

(** [l[i]] on a list: negative indices count from the end, anything
    outside raises IndexError. *)
Definition list_getitem {S A} (l : list A) (i : Z) : M S A :=
  let n := Z.of_nat (length l) in
  let j := if i <? 0 then i + n else i in
  if (j <? 0) || (n <=? j) then raise IndexError
  else match l !! Z.to_nat j with
       | Some x => ret x
       | None => raise IndexError
       end.

(** [utime.sleep_ms] and [print] leave the modelled state alone. *)
Definition sleep_ms {S} (ms : Z) : M S unit := ret ().
Definition print {S} (msg : string) : M S unit := ret ().

(** [machine.Pin]: an output line holds a level; [value(x)] drives it high
    exactly when [x] is true. *)
Module Pin.
Definition t := bool.
Definition level (x : Z) : t := truthy x.
End Pin.

(** ** MCP23017 register map (Bank=0) *)
Definition IODIRA   : Z := 0x00.
Definition IODIRB   : Z := 0x01.
Definition GPINTENA : Z := 0x04.
Definition DEFVALA  : Z := 0x06.
Definition INTCONA  : Z := 0x08.
Definition IOCON    : Z := 0x0A.
Definition GPPUA    : Z := 0x0C.
Definition GPIOA    : Z := 0x12.
Definition OLATB    : Z := 0x15.

(** ** IC driver classes *)

Module MCP23017.
(** The register file of the expander behind [self.i2c] at [self.addr].
    GPIOA holds the levels of the switch inputs and is changed by the
    panel, not by the program. *)
Record t := mk { regs : gmap Z Z }.

(** [bytes([val])] raises ValueError unless [0 <= val < 256]. *)
Definition _write8 (reg val : Z) : M t unit :=
  if (0 <=? val) && (val <? 256)
  then write (fun d => mk (<[reg := val]> (regs d)))
  else raise ValueError.

(** A register that was never written reads as 0. *)
Definition _read8 (reg : Z) : M t Z :=
  gets (fun d => default 0 (regs d !! reg)).

Definition read_gpioa : M t Z := _read8 GPIOA.

Definition __init__ : M t unit :=
  _write8 IOCON 0x20;;   (* 0b00100000 *)
  _write8 IODIRA 0xFF;;
  _write8 GPPUA 0xFF;;
  _write8 IODIRB 0x00;;
  _write8 OLATB 0xFF;;
  _write8 INTCONA 0x00;;
  _write8 DEFVALA 0x00;;
  _write8 GPINTENA 0xFF;;
  _ ← read_gpioa; ret ().

Definition set_led_only (index : Z) : M t unit :=
  mask ← (if index <? 0 then ret 0xFF
          else sh ← py_lshift 1 index; ret (Z.land 0xFF (Z.lnot sh)));
  _write8 OLATB mask.

(** The byte the LED bank (port B output latch) currently holds. *)
Definition olatb (d : t) : option Z := regs d !! OLATB.
End MCP23017.

Module PI3USB14.
(** 4:1 switch.  ~EN low enables, S1 S0 select port 0..3. *)
Record t := mk { en_n : Pin.t; s1 : Pin.t; s0 : Pin.t }.

Definition set_en_n (v : Pin.t) (d : t) : t := mk v (s1 d) (s0 d).
Definition set_s1 (v : Pin.t) (d : t) : t := mk (en_n d) v (s0 d).
Definition set_s0 (v : Pin.t) (d : t) : t := mk (en_n d) (s1 d) v.

Definition select (port0123 : Z) : M t unit :=
  let p := Z.max 0 (Z.min 3 port0123) in
  write (set_s0 (Pin.level (Z.land (Z.shiftr p 0) 1)));;
  write (set_s1 (Pin.level (Z.land (Z.shiftr p 1) 1))).

Definition enable : M t unit := write (set_en_n (Pin.level 0)).
Definition disable : M t unit := write (set_en_n (Pin.level 1)).

Definition __init__ : M t unit :=
  write (set_en_n (Pin.level 1));;
  write (set_s1 (Pin.level 1));;
  write (set_s0 (Pin.level 1));;
  disable.

Definition enabled (d : t) : bool := negb (en_n d).
(** The port number the select lines encode. *)
Definition port (d : t) : Z := 2 * Z.b2z (s1 d) + Z.b2z (s0 d).
End PI3USB14.

Module TS3USB30.
(** 2:1 switch.  OE low enables; S=0 is D1 (B side), S=1 is D2 (A side). *)
Record t := mk { oe : Pin.t; s : Pin.t }.

Definition set_oe (v : Pin.t) (d : t) : t := mk v (s d).
Definition set_s (v : Pin.t) (d : t) : t := mk (oe d) v.

Definition __init__ : M t unit :=
  write (set_oe (Pin.level 1));;
  write (set_s (Pin.level 0)).

Definition route_to_A : M t unit := write (set_s (Pin.level 1)).
Definition route_to_B : M t unit := write (set_s (Pin.level 0)).
Definition enable : M t unit := write (set_oe (Pin.level 0)).
Definition disable : M t unit := write (set_oe (Pin.level 1)).

Definition enabled (d : t) : bool := negb (oe d).
(** The side the S line routes to. *)
Definition side (d : t) : string := if s d then "A" else "B".
End TS3USB30.

Module HC137.
(** 3-to-8 decoder.  ~E1 high turns every output off; with ~E1 low only
    the output Y addressed by A2..A0 is low, which powers that port. *)
Record t := mk { e1_n : Pin.t; a2 : Pin.t; a1 : Pin.t; a0 : Pin.t }.

Definition set_e1_n (v : Pin.t) (d : t) : t := mk v (a2 d) (a1 d) (a0 d).
Definition set_a2 (v : Pin.t) (d : t) : t := mk (e1_n d) v (a1 d) (a0 d).
Definition set_a1 (v : Pin.t) (d : t) : t := mk (e1_n d) (a2 d) v (a0 d).
Definition set_a0 (v : Pin.t) (d : t) : t := mk (e1_n d) (a2 d) (a1 d) v.

Definition all_off : M t unit := write (set_e1_n (Pin.level 1)).

Definition __init__ : M t unit :=
  write (set_e1_n (Pin.level 1));;
  write (set_a2 (Pin.level 1));;
  write (set_a1 (Pin.level 1));;
  write (set_a0 (Pin.level 1));;
  all_off.

(** E1 is left as it is, only A2..A0 are set. *)
Definition select_addr (addr : Z) : M t unit :=
  let a := Z.max 0 (Z.min 7 addr) in
  write (set_a0 (Pin.level (Z.land (Z.shiftr a 0) 1)));;
  write (set_a1 (Pin.level (Z.land (Z.shiftr a 1) 1)));;
  write (set_a2 (Pin.level (Z.land (Z.shiftr a 2) 1))).

Definition enable : M t unit := write (set_e1_n (Pin.level 0)).
Definition disable : M t unit := write (set_e1_n (Pin.level 1)).

Definition enabled (d : t) : bool := negb (e1_n d).
(** The address the lines A2..A0 encode. *)
Definition address (d : t) : Z :=
  4 * Z.b2z (a2 d) + 2 * Z.b2z (a1 d) + Z.b2z (a0 d).
(** Output Y[n] is asserted (low): the power line of that port is on. *)
Definition Y (d : t) (n : Z) : bool := enabled d && (address d =? n).
End HC137.

(** ** PC class: the pin states one PC needs *)
Record PC := mkPC {
  index    : Z;
  sw_bit   : Z;
  led_bit  : Z;
  mux_side : string;
  mux_sel  : Z;
  ts3_side : string;
  hc_addr  : Z
}.

(** [PC.debug_print]: prints the entry, nothing else. *)
Definition debug_print {S} (pc : PC) : M S unit := print "<PC>".

(** ** Selector *)

(** The PC table built in [Usb8Selector.__init__]. *)
Definition pcs : list PC := [
  mkPC 0 7 0 "B" 3 "B" 0;
  mkPC 1 6 1 "B" 2 "B" 1;
  mkPC 2 5 2 "B" 1 "B" 2;
  mkPC 3 4 3 "B" 0 "B" 3;
  mkPC 4 3 4 "A" 3 "A" 4;
  mkPC 5 2 5 "A" 2 "A" 5;
  mkPC 6 1 6 "A" 1 "A" 6;
  mkPC 7 0 7 "A" 0 "A" 7
].

(** [{pc.sw_bit: pc.index for pc in self.pcs}]: a later entry replaces an
    earlier one with the same key. *)
Definition swbit_to_index : gmap Z Z :=
  foldl (fun d pc => <[sw_bit pc := index pc]> d) ∅ pcs.

Definition debounce_ms : Z := 25.

Record Usb8Selector := mkSel {
  debug_mode    : bool;
  ts3           : TS3USB30.t;
  muxA          : PI3USB14.t;
  muxB          : PI3USB14.t;
  hc137         : HC137.t;
  io            : MCP23017.t;
  selected      : Z;          (* -1: everything disconnected *)
  last_sw_state : Z
}.

Definition set_debug_mode (v : bool) (w : Usb8Selector) : Usb8Selector :=
  mkSel v (ts3 w) (muxA w) (muxB w) (hc137 w) (io w) (selected w) (last_sw_state w).
Definition set_ts3 (v : TS3USB30.t) (w : Usb8Selector) : Usb8Selector :=
  mkSel (debug_mode w) v (muxA w) (muxB w) (hc137 w) (io w) (selected w) (last_sw_state w).
Definition set_muxA (v : PI3USB14.t) (w : Usb8Selector) : Usb8Selector :=
  mkSel (debug_mode w) (ts3 w) v (muxB w) (hc137 w) (io w) (selected w) (last_sw_state w).
Definition set_muxB (v : PI3USB14.t) (w : Usb8Selector) : Usb8Selector :=
  mkSel (debug_mode w) (ts3 w) (muxA w) v (hc137 w) (io w) (selected w) (last_sw_state w).
Definition set_hc137 (v : HC137.t) (w : Usb8Selector) : Usb8Selector :=
  mkSel (debug_mode w) (ts3 w) (muxA w) (muxB w) v (io w) (selected w) (last_sw_state w).
Definition set_io (v : MCP23017.t) (w : Usb8Selector) : Usb8Selector :=
  mkSel (debug_mode w) (ts3 w) (muxA w) (muxB w) (hc137 w) v (selected w) (last_sw_state w).
Definition set_selected (v : Z) (w : Usb8Selector) : Usb8Selector :=
  mkSel (debug_mode w) (ts3 w) (muxA w) (muxB w) (hc137 w) (io w) v (last_sw_state w).
Definition set_last_sw_state (v : Z) (w : Usb8Selector) : Usb8Selector :=
  mkSel (debug_mode w) (ts3 w) (muxA w) (muxB w) (hc137 w) (io w) (selected w) v.

(** [self.ts3.m()], [self.muxA.m()], ... *)
Definition on_ts3 {A} : M TS3USB30.t A -> M Usb8Selector A := zoom ts3 set_ts3.
Definition on_muxA {A} : M PI3USB14.t A -> M Usb8Selector A := zoom muxA set_muxA.
Definition on_muxB {A} : M PI3USB14.t A -> M Usb8Selector A := zoom muxB set_muxB.
Definition on_hc137 {A} : M HC137.t A -> M Usb8Selector A := zoom hc137 set_hc137.
Definition on_io {A} : M MCP23017.t A -> M Usb8Selector A := zoom io set_io.

Definition _disconnect_all : M Usb8Selector unit :=
  on_ts3 TS3USB30.disable;;
  on_muxA PI3USB14.disable;;
  on_muxB PI3USB14.disable;;
  on_hc137 HC137.disable;;
  write (set_selected (-1)).

Definition _route_to_pc (pc : PC) : M Usb8Selector unit :=
  (* 1) route off *)
  on_ts3 TS3USB30.disable;;
  on_muxA PI3USB14.disable;;
  on_muxB PI3USB14.disable;;
  on_hc137 HC137.disable;;
  (* 2) address and selectors, E1 still high *)
  on_hc137 (HC137.select_addr (hc_addr pc));;
  ((if String.eqb (mux_side pc) "A" then
     on_muxA (PI3USB14.select (mux_sel pc));; on_muxA PI3USB14.enable;;
     on_muxB PI3USB14.disable;;
     on_ts3 TS3USB30.route_to_A
   else
     on_muxB (PI3USB14.select (mux_sel pc));; on_muxB PI3USB14.enable;;
     on_muxA PI3USB14.disable;;
     on_ts3 TS3USB30.route_to_B) : M Usb8Selector unit);;
  (* 3) VBUS on *)
  on_hc137 HC137.enable;;
  (* 4) data path on, after a short pause *)
  sleep_ms 2;;
  on_ts3 TS3USB30.enable;;
  write (set_selected (index pc));;
  dbg ← gets debug_mode;
  if (dbg : bool) then debug_print pc else ret ().

Definition _update_leds : M Usb8Selector unit :=
  sel ← gets selected;
  on_io (MCP23017.set_led_only sel).

Definition select_pc (idx : Z) : M Usb8Selector unit :=
  ((if negb ((0 <=? idx) && (idx <? Z.of_nat (length pcs))) then
     _disconnect_all
   else
     sel ← gets selected;
     if negb (idx =? sel) then
       pc ← list_getitem pcs idx;
       _route_to_pc pc
     else ret ()) : M Usb8Selector unit);;
  _update_leds.

Definition disconnect : M Usb8Selector unit :=
  _disconnect_all;;
  _update_leds.

(** The [for bit in range(7, -1, -1)] loop of the interrupt handler, with
    its [break] after the first selection. *)
Fixpoint scan_bits (rising : Z) (bits : list Z) : M Usb8Selector unit :=
  match bits with
  | [] => ret ()
  | bit :: rest =>
      m ← py_lshift 1 bit;
      if truthy (Z.land rising m) then
        match swbit_to_index !! bit with
        | Some idx => select_pc idx
        | None => scan_bits rising rest
        end
      else scan_bits rising rest
  end.

(** [range(7, -1, -1)] *)
Definition range_7_down : list Z := [7; 6; 5; 4; 3; 2; 1; 0].

Definition _on_mcp_int (pin : Pin.t) : M Usb8Selector unit :=
  sleep_ms debounce_ms;;
  state ← on_io MCP23017.read_gpioa;
  last ← gets last_sw_state;
  let changed := Z.lxor last state in
  if changed =? 0 then ret ()
  else
    last' ← gets last_sw_state;
    let rising := Z.land (Z.land (Z.lnot last') state) 0xFF in
    ((if truthy rising then scan_bits rising range_7_down else ret ())
       : M Usb8Selector unit);;
    write (set_last_sw_state state).

Definition __init__ (debug : bool) : M Usb8Selector unit :=
  write (set_debug_mode debug);;
  on_ts3 TS3USB30.__init__;;
  on_muxA PI3USB14.__init__;;
  on_muxB PI3USB14.__init__;;
  on_hc137 HC137.__init__;;
  on_io MCP23017.__init__;;
  write (set_selected (-1));;
  v ← on_io MCP23017.read_gpioa;
  write (set_last_sw_state v);;
  _disconnect_all;;
  _update_leds.

(** The panel changes the switch inputs: GPIOA takes a new byte. *)
Definition panel (v : Z) (w : Usb8Selector) : Usb8Selector :=
  set_io (MCP23017.mk (<[GPIOA := v]> (MCP23017.regs (io w)))) w.

(** The states the program can be in between two calls: after start-up from
    any power-up state, then after any sequence of panel changes, public
    calls and interrupts that returned. *)
Inductive reachable : Usb8Selector -> Prop :=
| reach_init w0 debug :
    result (__init__ debug w0) = inr () ->
    reachable (final (__init__ debug w0))
| reach_panel w v :
    reachable w -> 0 <= v < 256 -> reachable (panel v w)
| reach_select w idx :
    reachable w -> result (select_pc idx w) = inr () ->
    reachable (final (select_pc idx w))
| reach_disconnect w :
    reachable w -> result (disconnect w) = inr () ->
    reachable (final (disconnect w))
| reach_int w pin :
    reachable w -> result (_on_mcp_int pin w) = inr () ->
    reachable (final (_on_mcp_int pin w)).

(** ** The rest of the program *)

(** [{pc.sw_bit: pc.index for pc in tbl}] for any table; [swbit_to_index]
    is this dict for [pcs]. *)
Definition swbit_index_of (tbl : list PC) : gmap Z Z :=
  foldl (fun d pc => <[sw_bit pc := index pc]> d) ∅ tbl.

(** [Usb8Selector.debug_print_status]: reads the selection, the level of
    every control line and the last switch sample, and prints them. *)
Definition debug_print_status : M Usb8Selector unit :=
  print "--- Usb8Selector Status ---";;
  _ ← gets selected; print "Selected PC";;
  _ ← gets ts3; print "TS3USB30";;
  _ ← gets muxA; print "Mux A";;
  _ ← gets muxB; print "Mux B";;
  _ ← gets hc137; print "HC137";;
  _ ← gets last_sw_state; print "MCP23017";;
  print "--------------------------".

(** [try: body except ValueError: handler]: any other exception passes. *)
Definition try_except_ValueError {S} (body handler : M S unit) : M S unit :=
  fun s =>
    let r := body s in
    match result r with
    | inl ValueError =>
        let r' := handler (final r) in
        MkRun (result r') (final r') (trace r ++ trace r')
    | _ => r
    end.

Section Console.

(** The builtin [int] on a token of the command line: the number it
    denotes, or nothing when [int] raises ValueError. *)
Variable parse_int : string -> option Z.

Definition int {S} (tok : string) : M S Z :=
  match parse_int tok with
  | Some z => ret z
  | None => raise ValueError
  end.

(** One console command of [main]: what the loop does with the tokens
    [parts = cmd.split()] of a line it has read. *)
Definition console_command (parts : list string) : M Usb8Selector unit :=
  match parts with
  | [] => ret ()                                    (* continue *)
  | _ =>
      p0 ← list_getitem parts 0;
      if String.eqb p0 "help" then print "help"
      else if String.eqb p0 "status" then debug_print_status
      else if String.eqb p0 "disconnect" then
        disconnect;; print "disconnected"
      else if String.eqb p0 "select" && (1 <? Z.of_nat (length parts)) then
        try_except_ValueError
          (p1 ← list_getitem parts 1;
           idx ← int p1;
           if (0 <=? idx) && (idx <=? 7) then
             select_pc idx;; print "selected"
           else print "error: 0-7")
          (print "error: bad number")
      else print "error: unknown command"
  end.

End Console.

(** ** Observations on the state *)

(** The byte [set_led_only] computes for a selection. *)
Definition led_byte (sel : Z) : Z :=
  if sel <? 0 then 0xFF else Z.land 0xFF (Z.lnot (Z.shiftl 1 sel)).

(** The power line (VBUS) of a PC is on: its decoder output is asserted. *)
Definition vbus_on (w : Usb8Selector) (pc : PC) : bool :=
  HC137.Y (hc137 w) (hc_addr pc).

(** The three address lines of the decoder, as driven. *)
Definition addr_lines (w : Usb8Selector) : bool * bool * bool :=
  (HC137.a2 (hc137 w), HC137.a1 (hc137 w), HC137.a0 (hc137 w)).

(** Successive pairs of sampled states, starting from the state before. *)
Fixpoint steps {S} (s : S) (t : list S) : list (S * S) :=
  match t with
  | [] => []
  | s' :: t' => (s, s') :: steps s' t'
  end.

(** The last sampled state, or the state before when nothing was written. *)
Fixpoint last_state {S} (s : S) (t : list S) : S :=
  match t with
  | [] => s
  | s' :: t' => last_state s' t'
  end.

(** No route device is enabled. *)
Definition all_off (w : Usb8Selector) : Prop :=
  TS3USB30.enabled (ts3 w) = false /\
  PI3USB14.enabled (muxA w) = false /\
  PI3USB14.enabled (muxB w) = false /\
  HC137.enabled (hc137 w) = false.

(** The 4:1 switch that serves a side, and the one that does not. *)
Definition mux_of (side : string) (w : Usb8Selector) : PI3USB14.t :=
  if String.eqb side "A" then muxA w else muxB w.
Definition other_mux (side : string) (w : Usb8Selector) : PI3USB14.t :=
  if String.eqb side "A" then muxB w else muxA w.

(** The devices are set as the table entry of a PC asks. *)
Definition routed_to (pc : PC) (w : Usb8Selector) : Prop :=
  HC137.address (hc137 w) = hc_addr pc /\
  TS3USB30.side (ts3 w) = ts3_side pc /\
  PI3USB14.port (mux_of (mux_side pc) w) = mux_sel pc /\
  PI3USB14.enabled (mux_of (mux_side pc) w) = true /\
  PI3USB14.enabled (other_mux (mux_side pc) w) = false /\
  TS3USB30.enabled (ts3 w) = true /\
  HC137.enabled (hc137 w) = true.

(** The invariant of the route state. *)
Definition route_inv (w : Usb8Selector) : Prop :=
  (selected w = -1 \/ 0 <= selected w <= 7) /\
  (selected w = -1 -> all_off w) /\
  (forall pc, 0 <= selected w <= 7 ->
     pcs !! Z.to_nat (selected w) = Some pc -> routed_to pc w).

(** The LED bank shows the selection. *)
Definition led_inv (w : Usb8Selector) : Prop :=
  MCP23017.olatb (io w) = Some (led_byte (selected w)).

(** The state once the LED byte for the current selection is written. *)
Definition leds_shown (w : Usb8Selector) : Usb8Selector :=
  set_io (MCP23017.mk (<[OLATB := led_byte (selected w)]> (MCP23017.regs (io w)))) w.

(** One write on the way to the PC with decoder address [tgt] is safe for
    the power lines: the address lines move only while the decoder is and
    stays disabled, and the decoder is switched on only when the address
    lines already hold [tgt]. *)
Definition safe_step (tgt : Z) (s s' : Usb8Selector) : Prop :=
  (addr_lines s <> addr_lines s' ->
   HC137.enabled (hc137 s) = false /\ HC137.enabled (hc137 s') = false) /\
  (HC137.enabled (hc137 s) = false -> HC137.enabled (hc137 s') = true ->
   HC137.address (hc137 s') = tgt).

(** While switching away from state [w] towards decoder address [tgt], the
    only power lines that can be on are the one that was on in [w] and the
    one of the target. *)
Definition power_within (w : Usb8Selector) (tgt : Z) (s : Usb8Selector) : Prop :=
  forall n, HC137.Y (hc137 s) n = true -> HC137.Y (hc137 w) n = true \/ n = tgt.

(** Input bit [bit] went from pressed (0) in [last] to released (1) in
    [state]. *)
Definition rising_edge (last state bit : Z) : bool :=
  negb (Z.testbit last bit) && Z.testbit state bit.

(** The lowest PC whose switch bit has a rising edge. *)
Definition first_released (last state : Z) (pc : PC) : Prop :=
  pc ∈ pcs /\ rising_edge last state (sw_bit pc) = true /\
  forall pc', pc' ∈ pcs -> rising_edge last state (sw_bit pc') = true ->
              index pc <= index pc'.

(** The select lines of the two 4:1 switches, as driven. *)
Definition muxA_lines (w : Usb8Selector) : bool * bool :=
  (PI3USB14.s1 (muxA w), PI3USB14.s0 (muxA w)).
Definition muxB_lines (w : Usb8Selector) : bool * bool :=
  (PI3USB14.s1 (muxB w), PI3USB14.s0 (muxB w)).

(** One write is quiet: the select or address lines of a device move only
    while that device is disabled before and after the write. *)
Definition quiet_step (s s' : Usb8Selector) : Prop :=
  (TS3USB30.s (ts3 s) <> TS3USB30.s (ts3 s') ->
   TS3USB30.enabled (ts3 s) = false /\ TS3USB30.enabled (ts3 s') = false) /\
  (muxA_lines s <> muxA_lines s' ->
   PI3USB14.enabled (muxA s) = false /\ PI3USB14.enabled (muxA s') = false) /\
  (muxB_lines s <> muxB_lines s' ->
   PI3USB14.enabled (muxB s) = false /\ PI3USB14.enabled (muxB s') = false) /\
  (addr_lines s <> addr_lines s' ->
   HC137.enabled (hc137 s) = false /\ HC137.enabled (hc137 s') = false).

(** One write switches no device on. *)
Definition enables_nothing (s s' : Usb8Selector) : Prop :=
  (TS3USB30.enabled (ts3 s') = true -> TS3USB30.enabled (ts3 s) = true) /\
  (PI3USB14.enabled (muxA s') = true -> PI3USB14.enabled (muxA s) = true) /\
  (PI3USB14.enabled (muxB s') = true -> PI3USB14.enabled (muxB s) = true) /\
  (HC137.enabled (hc137 s') = true -> HC137.enabled (hc137 s) = true).

(** One write respects the switching order: a 4:1 switch goes on only
    with the other one and the TS3 off; the decoder (power) goes on only
    with the TS3 off; the TS3 (data path) goes on last, with the decoder
    on and with exactly the 4:1 switch of the side it points to on. *)
Definition ordered_step (s s' : Usb8Selector) : Prop :=
  (PI3USB14.enabled (muxA s) = false -> PI3USB14.enabled (muxA s') = true ->
   PI3USB14.enabled (muxB s') = false /\ TS3USB30.enabled (ts3 s') = false) /\
  (PI3USB14.enabled (muxB s) = false -> PI3USB14.enabled (muxB s') = true ->
   PI3USB14.enabled (muxA s') = false /\ TS3USB30.enabled (ts3 s') = false) /\
  (HC137.enabled (hc137 s) = false -> HC137.enabled (hc137 s') = true ->
   TS3USB30.enabled (ts3 s') = false) /\
  (TS3USB30.enabled (ts3 s) = false -> TS3USB30.enabled (ts3 s') = true ->
   HC137.enabled (hc137 s') = true /\
   PI3USB14.enabled (mux_of (TS3USB30.side (ts3 s')) s') = true /\
   PI3USB14.enabled (other_mux (TS3USB30.side (ts3 s')) s') = false).

(** Both 4:1 switches are on at once. *)
Definition both_muxes_on (w : Usb8Selector) : bool :=
  PI3USB14.enabled (muxA w) && PI3USB14.enabled (muxB w).

(** The byte on the switch inputs while only the switch of [pc] is held
    down: all ones but bit [sw_bit pc]. *)
Definition held_down (pc : PC) : Z := Z.clearbit 0xFF (sw_bit pc).

(** A table entry with another TS3 side, switch bit and LED bit. *)
Definition with_ui (pc : PC) (sw led : Z) (side : string) : PC :=
  mkPC (index pc) sw led (mux_side pc) (mux_sel pc) side (hc_addr pc).

(** A concrete power-up state for examples: every line low, empty register
    file. *)
Definition power_up : Usb8Selector :=
  mkSel false (TS3USB30.mk false false)
        (PI3USB14.mk false false false) (PI3USB14.mk false false false)
        (HC137.mk false false false false) (MCP23017.mk ∅) 0 0.

(** Concrete states for the examples: the selector just started with every
    switch released; SW0 held down; SW0 and SW1 held down and then both
    released together; PC3 selected. *)
Definition booted : Usb8Selector := final (__init__ false (panel 0xFF power_up)).
Definition sw0_pressed : Usb8Selector := panel 0x7F booted.
Definition two_pressed : Usb8Selector :=
  final (_on_mcp_int false (panel 0x3F booted)).
Definition two_released : Usb8Selector := panel 0xFF two_pressed.
Definition pc3_selected : Usb8Selector := final (select_pc 3 booted).

(** ** Proof automation *)

(** Name every line of a symbolic state. *)
Ltac open_state w :=
  destruct w as [?dm [?oe ?s] [?aen ?as1 ?as0] [?ben ?bs1 ?bs0]
                 [?e1 ?a2 ?a1 ?a0] [?regs] ?sel ?last].

Ltac run :=
  cbv [_route_to_pc _disconnect_all disconnect leds_shown
       mbind M_bind bind mret M_ret ret gets raise write zoom sleep_ms print
       debug_print on_ts3 on_muxA on_muxB on_hc137 on_io
       TS3USB30.disable TS3USB30.enable TS3USB30.route_to_A TS3USB30.route_to_B
       PI3USB14.disable PI3USB14.enable PI3USB14.select
       HC137.disable HC137.enable HC137.select_addr
       set_debug_mode set_ts3 set_muxA set_muxB set_hc137 set_io
       set_selected set_last_sw_state
       debug_mode ts3 muxA muxB hc137 io selected last_sw_state
       TS3USB30.set_oe TS3USB30.set_s TS3USB30.oe TS3USB30.s
       PI3USB14.set_en_n PI3USB14.set_s1 PI3USB14.set_s0
       PI3USB14.en_n PI3USB14.s1 PI3USB14.s0
       HC137.set_e1_n HC137.set_a2 HC137.set_a1 HC137.set_a0
       HC137.e1_n HC137.a2 HC137.a1 HC137.a0
       MCP23017.regs
       result final trace fmap list_fmap app steps last_state].

Ltac all_steps tac :=
  repeat (apply Forall_cons_2; [tac|]); apply Forall_nil_2.

Ltac cases_0_7 x :=
  let H := fresh in
  assert (x = 0 \/ x = 1 \/ x = 2 \/ x = 3 \/
          x = 4 \/ x = 5 \/ x = 6 \/ x = 7) as H by lia;
  destruct H as [->|[->|[->|[->|[->|[->|[->| ->]]]]]]].

(** Case analysis over the entries of the table. *)
Ltac each_pc H :=
  unfold pcs in H;
  repeat (apply elem_of_cons in H as [->|H]);
  [..|now apply elem_of_nil in H].

(** The scan stops at bit [k], which belongs to [pc]. *)
Ltac found Hfirst Hb Hhi k pc :=
  exists pc; split;
  [apply (Hfirst k); [unfold pcs; repeat constructor|reflexivity|exact Hhi
                     |now rewrite <- Hb by lia]
  |reflexivity].

(** Replace the levels computed from a table entry by unknown levels. *)
Ltac abstract_levels :=
  change (Pin.level 1) with true; change (Pin.level 0) with false;
  repeat match goal with
         | |- context [Pin.level ?x] => generalize (Pin.level x); intro
         end.

(** Decide the step predicates on two explicit states. *)
Ltac step_facts :=
  unfold quiet_step, enables_nothing, ordered_step, muxA_lines, muxB_lines,
    addr_lines, mux_of, other_mux, TS3USB30.side, TS3USB30.enabled,
    PI3USB14.enabled, HC137.enabled;
  cbn; intuition (try discriminate; try congruence).

(** Symbolic execution of the start-up, byte checks included. *)
Ltac run_init :=
  cbv [__init__ _disconnect_all _update_leds leds_shown
       mbind M_bind bind mret M_ret ret gets raise write zoom sleep_ms print
       on_ts3 on_muxA on_muxB on_hc137 on_io
       TS3USB30.__init__ PI3USB14.__init__ HC137.__init__ HC137.all_off
       MCP23017.__init__ MCP23017._write8 MCP23017._read8 MCP23017.read_gpioa
       MCP23017.set_led_only py_lshift
       TS3USB30.disable PI3USB14.disable HC137.disable
       set_debug_mode set_ts3 set_muxA set_muxB set_hc137 set_io
       set_selected set_last_sw_state
       debug_mode ts3 muxA muxB hc137 io selected last_sw_state
       TS3USB30.set_oe TS3USB30.set_s TS3USB30.oe TS3USB30.s
       PI3USB14.set_en_n PI3USB14.set_s1 PI3USB14.set_s0
       PI3USB14.en_n PI3USB14.s1 PI3USB14.s0
       HC137.set_e1_n HC137.set_a2 HC137.set_a1 HC137.set_a0
       HC137.e1_n HC137.a2 HC137.a1 HC137.a0
       MCP23017.regs
       IOCON IODIRA IODIRB GPPUA OLATB INTCONA DEFVALA GPINTENA GPIOA
       Z.leb Z.ltb Z.compare Pos.compare Pos.compare_cont andb
       result final trace fmap list_fmap app steps last_state].

Example init_example :
  result (__init__ false (panel 0xFF power_up)) = inr () /\
  selected booted = -1 /\ MCP23017.olatb (io booted) = Some 0xFF /\
  last_sw_state booted = 0xFF /\
  length (trace (__init__ false (panel 0xFF power_up))) = 32%nat.
Proof. vm_compute. repeat split. Qed.

(** PC2 from the started selector: decoder address 010 with ~E1 low, the B
    switch enabled on port 1, the A switch disabled, TS3 enabled on the B
    side, LED2 alone lit. *)
Example select_pc2_example :
  let w := final (select_pc 2 booted) in
  hc137 w = HC137.mk false false true false /\
  muxB w = PI3USB14.mk false false true /\
  muxA w = PI3USB14.mk true true true /\
  ts3 w = TS3USB30.mk false false /\
  selected w = 2 /\ MCP23017.olatb (io w) = Some 0xFB /\
  length (trace (select_pc 2 booted)) = 16%nat.
Proof. vm_compute. repeat split. Qed.

(** * Proofs *)

(** ** The monad *)

Lemma run_bind {S A B} (m : M S A) (k : A -> M S B) (s : S) (a : A) :
  result (m s) = inr a ->
  (m ≫= k) s =
  MkRun (result (k a (final (m s)))) (final (k a (final (m s))))
        (trace (m s) ++ trace (k a (final (m s)))).
Proof.
  intros H. unfold mbind, M_bind, bind. now rewrite H.
Qed.

Lemma bind_gets {S A B} (f : S -> A) (k : A -> M S B) (s : S) :
  (gets f ≫= k) s = k (f s) s.
Proof.
  unfold mbind, M_bind, bind, gets. cbn [result final trace app].
  now destruct (k (f s) s).
Qed.

(** A step that returns without touching the state can be skipped. *)
Lemma run_bind_pure {S A B} (m : M S A) (k : A -> M S B) (s : S) (a : A) :
  m s = MkRun (inr a) s [] -> (m ≫= k) s = k a s.
Proof.
  intros H. unfold mbind, M_bind, bind. rewrite H.
  cbn [result final trace app]. now destruct (k a s).
Qed.

Lemma bind_ret_l {S B} (m : M S unit) (k : M S B) (s : S) :
  m s = MkRun (inr ()) s [] -> (m;; k) s = k s.
Proof. intros H. now rewrite (run_bind_pure _ _ _ _ H). Qed.

Lemma bind_cong {S A B} (m m' : M S A) (k : A -> M S B) (s : S) :
  m s = m' s -> (m ≫= k) s = (m' ≫= k) s.
Proof. intros H. unfold mbind, M_bind, bind. now rewrite H. Qed.

Lemma steps_app {S} (t1 t2 : list S) (s : S) :
  steps s (t1 ++ t2) = steps s t1 ++ steps (last_state s t1) t2.
Proof.
  revert s. induction t1 as [|x t1 IH]; intros s; [reflexivity|].
  cbn [app steps last_state]. now rewrite IH.
Qed.

(** ** Bit arithmetic *)

Lemma land_255_byte (x : Z) : 0 <= Z.land 0xFF x < 256.
Proof.
  rewrite Z.land_comm. change 0xFF with (Z.ones 8).
  rewrite Z.land_ones by lia. apply Z.mod_pos_bound. reflexivity.
Qed.

Lemma led_byte_byte (sel : Z) :
  (0 <=? led_byte sel) && (led_byte sel <? 256) = true.
Proof.
  unfold led_byte. destruct (sel <? 0); [reflexivity|].
  pose proof (land_255_byte (Z.lnot (Z.shiftl 1 sel))). 
  apply andb_true_iff. split; [apply Z.leb_le | apply Z.ltb_lt]; lia.
Qed.

Lemma truthy_land_bit (r bit : Z) :
  0 <= bit -> truthy (Z.land r (Z.shiftl 1 bit)) = Z.testbit r bit.
Proof.
  intros Hb. unfold truthy.
  destruct (Z.testbit r bit) eqn:E.
  - apply negb_true_iff, Z.eqb_neq. intros H0.
    assert (Z.testbit (Z.land r (Z.shiftl 1 bit)) bit = true) as Ht.
    { rewrite Z.land_spec, E, Z.shiftl_spec, Z.sub_diag by lia. reflexivity. }
    rewrite H0, Z.bits_0 in Ht. discriminate.
  - apply negb_false_iff, Z.eqb_eq. apply Z.bits_inj'. intros n Hn.
    rewrite Z.land_spec, Z.bits_0, Z.shiftl_spec by lia.
    destruct (Z.eq_dec n bit) as [->|Hne]; [now rewrite E|].
    replace (Z.testbit 1 (n - bit)) with false; [apply andb_false_r|].
    destruct (Z.lt_ge_cases (n - bit) 0) as [Hl|Hl].
    + now rewrite Z.testbit_neg_r.
    + symmetry. change 1 with (Z.ones 1). apply Z.ones_spec_high. lia.
Qed.

(** ** Symbolic execution of the selector *)

Lemma set_led_only_run (index : Z) (d : MCP23017.t) :
  MCP23017.set_led_only index d =
  let d' := MCP23017.mk (<[OLATB := led_byte index]> (MCP23017.regs d)) in
  MkRun (inr ()) d' [d'].
Proof.
  pose proof (led_byte_byte index) as Hb. unfold led_byte in *.
  unfold MCP23017.set_led_only, MCP23017._write8, py_lshift.
  destruct (index <? 0);
    cbv [mbind M_bind bind mret M_ret ret result final trace].
  - reflexivity.
  - rewrite Hb. reflexivity.
Qed.

Lemma update_leds_run (w : Usb8Selector) :
  _update_leds w = MkRun (inr ()) (leds_shown w) [leds_shown w].
Proof.
  unfold _update_leds, on_io, zoom, gets, mbind, M_bind, bind.
  cbn [result final trace]. rewrite set_led_only_run. reflexivity.
Qed.

Lemma list_getitem_pcs {S} (idx : Z) (s : S) :
  0 <= idx <= 7 ->
  exists pc, pcs !! Z.to_nat idx = Some pc /\ index pc = idx /\
             hc_addr pc = idx /\ led_bit pc = idx /\
             @list_getitem S _ pcs idx s = MkRun (inr pc) s [].
Proof.
  intros H. cases_0_7 idx; (eexists; repeat split; reflexivity).
Qed.

(** ** The routing sequence, for any table entry *)

Lemma route_result pc w :
  let r := _route_to_pc pc w in
  result r = inr () /\ final r = last_state w (trace r) /\
  selected (final r) = index pc /\ io (final r) = io w /\
  last_sw_state (final r) = last_sw_state w.
Proof.
  open_state w. run.
  destruct (String.eqb (mux_side pc) "A"), dm; cbv beta iota;
    split_and!; reflexivity.
Qed.

Lemma route_steps pc w :
  0 <= hc_addr pc <= 7 ->
  Forall (fun p => safe_step (hc_addr pc) p.1 p.2)
         (steps w (trace (_route_to_pc pc w))).
Proof.
  intros Ha. open_state w. run.
  replace (Z.max 0 (Z.min 7 (hc_addr pc))) with (hc_addr pc) by lia.
  destruct (String.eqb (mux_side pc) "A"), dm; cbv beta iota.
  all: cases_0_7 (hc_addr pc).
  all: all_steps ltac:(split; intros; vm_compute in *; intuition congruence).
Qed.

Lemma route_power pc w :
  0 <= hc_addr pc <= 7 ->
  Forall (power_within w (hc_addr pc)) (trace (_route_to_pc pc w)).
Proof.
  intros Ha. open_state w. run.
  replace (Z.max 0 (Z.min 7 (hc_addr pc))) with (hc_addr pc) by lia.
  destruct (String.eqb (mux_side pc) "A"), dm; cbv beta iota.
  all: cases_0_7 (hc_addr pc).
  all: all_steps ltac:(intros n Hn; unfold HC137.Y, HC137.enabled in *;
                       cbn in *;
                       first [ discriminate | now left
                             | right; apply Z.eqb_eq in Hn; rewrite <- Hn;
                               reflexivity ]).
Qed.

Lemma route_routed pc w :
  pc ∈ pcs -> routed_to pc (final (_route_to_pc pc w)).
Proof.
  intros Hin. open_state w. unfold pcs in Hin.
  repeat (apply elem_of_cons in Hin as [->|Hin]);
    [..|now apply elem_of_nil in Hin];
    destruct dm; vm_compute; repeat split; reflexivity.
Qed.

(** ** Disconnecting and the LED refresh *)

Lemma disconnect_all_result w :
  let r := _disconnect_all w in
  result r = inr () /\ final r = last_state w (trace r) /\
  selected (final r) = -1 /\ all_off (final r) /\ io (final r) = io w /\
  last_sw_state (final r) = last_sw_state w.
Proof.
  open_state w. run. unfold all_off. split_and!; reflexivity.
Qed.

Lemma disconnect_all_steps tgt w :
  Forall (fun p => safe_step tgt p.1 p.2) (steps w (trace (_disconnect_all w))).
Proof.
  open_state w. run.
  all_steps ltac:(split; intros; vm_compute in *; intuition congruence).
Qed.

Lemma disconnect_all_power tgt w :
  Forall (power_within w tgt) (trace (_disconnect_all w)).
Proof.
  open_state w. run.
  all_steps ltac:(intros n Hn; unfold HC137.Y, HC137.enabled in *; cbn in *;
                  first [discriminate | now left]).
Qed.

Lemma leds_shown_safe tgt w : safe_step tgt w (leds_shown w).
Proof.
  open_state w. split; intros; vm_compute in *; intuition congruence.
Qed.

Lemma leds_shown_selected w : selected (leds_shown w) = selected w.
Proof. reflexivity. Qed.

Lemma leds_shown_last_sw_state w :
  last_sw_state (leds_shown w) = last_sw_state w.
Proof. reflexivity. Qed.

Lemma leds_shown_route_inv w : route_inv w -> route_inv (leds_shown w).
Proof. open_state w. exact id. Qed.

Lemma leds_shown_led_inv w : led_inv (leds_shown w).
Proof.
  open_state w. unfold led_inv, MCP23017.olatb. run. apply lookup_insert_eq.
Qed.

(** ** [select_pc]: the three cases *)

Lemma select_pc_cases idx w :
  (~ 0 <= idx <= 7 /\ select_pc idx w = disconnect w) \/
  (0 <= idx <= 7 /\ idx = selected w /\ select_pc idx w = _update_leds w) \/
  (0 <= idx <= 7 /\ idx <> selected w /\
   exists pc, pcs !! Z.to_nat idx = Some pc /\ index pc = idx /\
              hc_addr pc = idx /\ led_bit pc = idx /\
              select_pc idx w = (_route_to_pc pc;; _update_leds) w).
Proof.
  unfold select_pc.
  destruct ((0 <=? idx) && (idx <? Z.of_nat (length pcs))) eqn:E; cbn [negb].
  - apply andb_true_iff in E as [E1 E2].
    apply Z.leb_le in E1. apply Z.ltb_lt in E2.
    change (Z.of_nat (length pcs)) with 8 in E2.
    assert (0 <= idx <= 7) as Hr by lia.
    right. destruct (Z.eq_dec idx (selected w)) as [Heq|Hne].
    + left. split; [exact Hr|]. split; [exact Heq|].
      apply bind_ret_l. rewrite bind_gets.
      apply Z.eqb_eq in Heq. now rewrite Heq.
    + right. split; [exact Hr|]. split; [exact Hne|].
      destruct (list_getitem_pcs idx w Hr) as (pc & Hl & Hi & Ha & Hb & Hg).
      exists pc. split; [exact Hl|]. split; [exact Hi|].
      split; [exact Ha|]. split; [exact Hb|].
      apply bind_cong. rewrite bind_gets.
      apply Z.eqb_neq in Hne. rewrite Hne.
      change (negb false) with true. cbv iota.
      now rewrite (run_bind_pure _ _ _ _ Hg).
  - left. split; [|reflexivity].
    apply andb_false_iff in E as [E|E];
      [apply Z.leb_gt in E
      |apply Z.ltb_ge in E; change (Z.of_nat (length pcs)) with 8 in E]; lia.
Qed.

Lemma disconnect_run w :
  let r := disconnect w in
  let d := _disconnect_all w in
  result r = inr () /\ final r = leds_shown (final d) /\
  trace r = trace d ++ [leds_shown (final d)].
Proof.
  cbv zeta. unfold disconnect.
  destruct (disconnect_all_result w) as (Hr & _).
  rewrite (run_bind _ _ _ _ Hr), update_leds_run. split_and!; reflexivity.
Qed.

Lemma route_leds_run pc w :
  let r := (_route_to_pc pc;; _update_leds) w in
  let d := _route_to_pc pc w in
  result r = inr () /\ final r = leds_shown (final d) /\
  trace r = trace d ++ [leds_shown (final d)].
Proof.
  cbv zeta.
  destruct (route_result pc w) as (Hr & _).
  rewrite (run_bind _ _ _ _ Hr), update_leds_run. split_and!; reflexivity.
Qed.

Lemma last_state_snoc {S} (s x : S) (t : list S) : last_state s (t ++ [x]) = x.
Proof. revert s. induction t as [|y t IH]; intros s; [reflexivity|apply IH]. Qed.

(** [select_pc] never raises, and its last sample is the state it ends in. *)
Lemma select_pc_result idx w :
  let r := select_pc idx w in
  result r = inr () /\ final r = last_state w (trace r) /\
  led_inv (final r) /\ last_sw_state (final r) = last_sw_state w /\
  selected (final r) = (if (0 <=? idx) && (idx <=? 7) then idx else -1).
Proof.
  cbv zeta.
  destruct (select_pc_cases idx w)
    as [(Hr & ->)|[(Hr & He & ->)|(Hr & Hne & pc & _ & Hi & _ & _ & ->)]].
  - destruct (disconnect_run w) as (-> & -> & ->).
    destruct (disconnect_all_result w) as (_ & _ & Hs & _ & _ & Hl).
    rewrite last_state_snoc, leds_shown_selected, leds_shown_last_sw_state, Hs.
    refine (conj eq_refl (conj eq_refl (conj (leds_shown_led_inv _) (conj Hl _)))).
    destruct (0 <=? idx) eqn:E1, (idx <=? 7) eqn:E2; try reflexivity.
    apply Z.leb_le in E1, E2. lia.
  - rewrite update_leds_run. cbn [result final trace last_state].
    rewrite leds_shown_selected, leds_shown_last_sw_state.
    refine (conj eq_refl (conj eq_refl (conj (leds_shown_led_inv _) (conj eq_refl _)))).
    destruct Hr as (H0 & H7). apply Z.leb_le in H0, H7.
    now rewrite H0, H7.
  - destruct (route_leds_run pc w) as (-> & -> & ->).
    destruct (route_result pc w) as (_ & _ & Hs & _ & Hl).
    rewrite last_state_snoc, leds_shown_selected, leds_shown_last_sw_state, Hs, Hi.
    refine (conj eq_refl (conj eq_refl (conj (leds_shown_led_inv _) (conj Hl _)))).
    destruct Hr as (H0 & H7). apply Z.leb_le in H0, H7.
    now rewrite H0, H7.
Qed.

Lemma Forall_last_state {S} (P : S -> Prop) (s : S) (t : list S) :
  P s -> Forall P t -> P (last_state s t).
Proof.
  intros Hs Ht. revert s Hs.
  induction Ht as [|x t Hx _ IH]; intros s Hs; [exact Hs|apply IH, Hx].
Qed.

Lemma power_within_start tgt w : power_within w tgt w.
Proof. intros n Hn. now left. Qed.

Lemma power_within_leds w tgt s :
  power_within w tgt s -> power_within w tgt (leds_shown s).
Proof. exact id. Qed.

Lemma select_pc_steps idx w :
  0 <= idx <= 7 ->
  Forall (fun p => safe_step idx p.1 p.2) (steps w (trace (select_pc idx w))).
Proof.
  intros Hr.
  destruct (select_pc_cases idx w)
    as [(Hn & _)|[(_ & _ & ->)|(_ & _ & pc & _ & _ & Ha & _ & ->)]].
  - contradiction.
  - rewrite update_leds_run. cbn [trace steps].
    apply Forall_cons_2; [cbn [fst snd]; apply leds_shown_safe|apply Forall_nil_2].
  - destruct (route_leds_run pc w) as (_ & _ & ->).
    rewrite steps_app.
    destruct (route_result pc w) as (_ & <- & _).
    apply Forall_app. split.
    + rewrite <- Ha. apply route_steps. lia.
    + cbn [steps].
      apply Forall_cons_2; [cbn [fst snd]; apply leds_shown_safe|apply Forall_nil_2].
Qed.

Lemma select_pc_power idx w :
  0 <= idx <= 7 -> Forall (power_within w idx) (trace (select_pc idx w)).
Proof.
  intros Hr.
  destruct (select_pc_cases idx w)
    as [(Hn & _)|[(_ & _ & ->)|(_ & _ & pc & _ & _ & Ha & _ & ->)]].
  - contradiction.
  - rewrite update_leds_run. cbn [trace].
    apply Forall_cons_2; [|apply Forall_nil_2].
    apply power_within_leds, power_within_start.
  - destruct (route_leds_run pc w) as (_ & _ & ->).
    assert (Forall (power_within w idx) (trace (_route_to_pc pc w))) as Hp.
    { rewrite <- Ha. apply route_power. lia. }
    apply Forall_app. split; [exact Hp|].
    apply Forall_cons_2; [|apply Forall_nil_2].
    apply power_within_leds.
    destruct (route_result pc w) as (_ & -> & _).
    apply Forall_last_state; [apply power_within_start|exact Hp].
Qed.

(** ** The port table *)

Lemma pcs_hc_addr_inj pa pb :
  pa ∈ pcs -> pb ∈ pcs -> hc_addr pa = hc_addr pb -> pa = pb.
Proof.
  intros Ha Hb. each_pc Ha; each_pc Hb; cbn; intros H;
    first [reflexivity | discriminate H].
Qed.

Lemma pcs_hc_addr_index pc : pc ∈ pcs -> hc_addr pc = index pc.
Proof. intros H. each_pc H; reflexivity. Qed.

Lemma pcs_lookup_index idx pc :
  0 <= idx <= 7 -> pcs !! Z.to_nat idx = Some pc -> pc ∈ pcs /\ index pc = idx.
Proof.
  intros Hr Hl. split; [eapply list_elem_of_lookup_2, Hl|].
  revert Hl. cases_0_7 idx; cbn; intros [= <-]; reflexivity.
Qed.

Lemma vbus_on_address w pc :
  vbus_on w pc = true ->
  HC137.enabled (hc137 w) = true /\ HC137.address (hc137 w) = hc_addr pc.
Proof.
  unfold vbus_on, HC137.Y. intros H. apply andb_true_iff in H as [He Ha].
  split; [exact He|now apply Z.eqb_eq].
Qed.

Lemma vbus_on_unique w pa pb :
  pa ∈ pcs -> pb ∈ pcs -> vbus_on w pa = true -> vbus_on w pb = true -> pa = pb.
Proof.
  intros Ha Hb Hva Hvb.
  apply vbus_on_address in Hva as [_ Hva], Hvb as [_ Hvb].
  apply pcs_hc_addr_inj; congruence.
Qed.

(** ** The route invariant *)

Lemma all_off_route_inv w : selected w = -1 -> all_off w -> route_inv w.
Proof.
  intros Hs Ha. unfold route_inv. rewrite Hs.
  split; [now left|]. split; [intros _; exact Ha|]. intros pc ?. lia.
Qed.

Lemma disconnect_route_inv w :
  route_inv (final (disconnect w)) /\ all_off (final (disconnect w)) /\
  selected (final (disconnect w)) = -1.
Proof.
  destruct (disconnect_run w) as (_ & -> & _).
  destruct (disconnect_all_result w) as (_ & _ & Hs & Ha & _).
  split; [|split; [exact Ha|exact Hs]].
  apply leds_shown_route_inv, all_off_route_inv; assumption.
Qed.

Lemma route_route_inv idx pc w :
  0 <= idx <= 7 -> pcs !! Z.to_nat idx = Some pc ->
  route_inv (final (_route_to_pc pc w)).
Proof.
  intros Hr Hl. destruct (pcs_lookup_index idx pc Hr Hl) as (Hin & Hi).
  destruct (route_result pc w) as (_ & _ & Hs & _).
  unfold route_inv. rewrite Hs, Hi.
  split; [now right|]. split; [intros ?; lia|].
  intros pc' _ Hl'. rewrite Hl in Hl'. injection Hl' as <-.
  now apply route_routed.
Qed.

Lemma select_pc_route_inv idx w :
  route_inv w -> route_inv (final (select_pc idx w)).
Proof.
  intros Hinv.
  destruct (select_pc_cases idx w)
    as [(_ & ->)|[(_ & _ & ->)|(Hr & _ & pc & Hl & _ & _ & _ & ->)]].
  - apply disconnect_route_inv.
  - rewrite update_leds_run. now apply leds_shown_route_inv.
  - destruct (route_leds_run pc w) as (_ & -> & _).
    eapply leds_shown_route_inv, route_route_inv; eassumption.
Qed.

(** ** The interrupt handler *)

Lemma on_io_read_gpioa w :
  on_io MCP23017.read_gpioa w =
  MkRun (inr (default 0 (MCP23017.regs (io w) !! GPIOA))) w [].
Proof. now destruct w. Qed.

Lemma scan_bits_cons rising bit rest w :
  0 <= bit ->
  scan_bits rising (bit :: rest) w =
  if Z.testbit rising bit then
    match swbit_to_index !! bit with
    | Some idx => select_pc idx w
    | None => scan_bits rising rest w
    end
  else scan_bits rising rest w.
Proof.
  intros Hb. cbn [scan_bits]. unfold py_lshift.
  apply Z.ltb_ge in Hb. rewrite Hb.
  rewrite (run_bind_pure _ _ w (Z.shiftl 1 bit)) by reflexivity.
  apply Z.ltb_ge in Hb. rewrite truthy_land_bit by exact Hb.
  destruct (Z.testbit rising bit); [destruct (swbit_to_index !! bit)|];
    reflexivity.
Qed.

Lemma rising_bits last state bit :
  0 <= bit <= 7 ->
  Z.testbit (Z.land (Z.land (Z.lnot last) state) 0xFF) bit =
  rising_edge last state bit.
Proof.
  intros Hb. unfold rising_edge.
  rewrite !Z.land_spec, Z.lnot_spec by lia.
  change 0xFF with (Z.ones 8). rewrite Z.ones_spec_low by lia.
  apply andb_true_r.
Qed.

Lemma rising_none last state :
  (forall bit, 0 <= bit <= 7 -> rising_edge last state bit = false) ->
  Z.land (Z.land (Z.lnot last) state) 0xFF = 0.
Proof.
  intros H. apply Z.bits_inj'. intros n Hn. rewrite Z.bits_0.
  destruct (Z.le_gt_cases n 7) as [Hle|Hgt].
  - rewrite rising_bits by lia. apply H. lia.
  - rewrite Z.land_spec. change 0xFF with (Z.ones 8).
    rewrite Z.ones_spec_high by lia. apply andb_false_r.
Qed.

Lemma scan_bits_first last state w :
  let rising := Z.land (Z.land (Z.lnot last) state) 0xFF in
  truthy rising = true ->
  exists pc, first_released last state pc /\
             scan_bits rising range_7_down w = select_pc (index pc) w.
Proof.
  intros rising Ht. unfold range_7_down.
  assert (forall b, 0 <= b <= 7 ->
            Z.testbit rising b = rising_edge last state b) as Hb
    by (intros; now apply rising_bits).
  assert (forall k pc, pc ∈ pcs -> sw_bit pc = k ->
            (forall b, k < b <= 7 -> rising_edge last state b = false) ->
            rising_edge last state k = true ->
            first_released last state pc) as Hfirst.
  { intros k pc Hin Hk Hhi Hr. split; [exact Hin|]. split; [now rewrite Hk|].
    intros pc' Hin' Hr'.
    destruct (Z.le_gt_cases (index pc) (index pc')) as [|Hlt]; [assumption|].
    exfalso. rewrite (Hhi (sw_bit pc')) in Hr'; [discriminate|].
    subst k. clear - Hin Hin' Hlt.
    each_pc Hin; each_pc Hin'; cbn in *; lia. }
  assert (forall k, 0 <= k <= 7 -> Z.testbit rising k = false ->
            (forall b, k < b <= 7 -> rising_edge last state b = false) ->
            forall b, k - 1 < b <= 7 -> rising_edge last state b = false) as Hnext.
  { intros k Hk Hf Hhi b Hb'.
    destruct (Z.eq_dec b k) as [->|]; [now rewrite <- Hb|apply Hhi; lia]. }
  assert (forall b, 7 < b <= 7 -> rising_edge last state b = false) as H7
    by (intros; lia).
  rewrite scan_bits_cons by lia. destruct (Z.testbit rising 7) eqn:E7.
  { found Hfirst Hb H7 7 (mkPC 0 7 0 "B" 3 "B" 0). }
  pose proof (Hnext 7 ltac:(lia) E7 H7) as H6. cbn in H6.
  rewrite scan_bits_cons by lia. destruct (Z.testbit rising 6) eqn:E6.
  { found Hfirst Hb H6 6 (mkPC 1 6 1 "B" 2 "B" 1). }
  pose proof (Hnext 6 ltac:(lia) E6 H6) as H5. cbn in H5.
  rewrite scan_bits_cons by lia. destruct (Z.testbit rising 5) eqn:E5.
  { found Hfirst Hb H5 5 (mkPC 2 5 2 "B" 1 "B" 2). }
  pose proof (Hnext 5 ltac:(lia) E5 H5) as H4. cbn in H4.
  rewrite scan_bits_cons by lia. destruct (Z.testbit rising 4) eqn:E4.
  { found Hfirst Hb H4 4 (mkPC 3 4 3 "B" 0 "B" 3). }
  pose proof (Hnext 4 ltac:(lia) E4 H4) as H3. cbn in H3.
  rewrite scan_bits_cons by lia. destruct (Z.testbit rising 3) eqn:E3.
  { found Hfirst Hb H3 3 (mkPC 4 3 4 "A" 3 "A" 4). }
  pose proof (Hnext 3 ltac:(lia) E3 H3) as H2. cbn in H2.
  rewrite scan_bits_cons by lia. destruct (Z.testbit rising 2) eqn:E2.
  { found Hfirst Hb H2 2 (mkPC 5 2 5 "A" 2 "A" 5). }
  pose proof (Hnext 2 ltac:(lia) E2 H2) as H1. cbn in H1.
  rewrite scan_bits_cons by lia. destruct (Z.testbit rising 1) eqn:E1.
  { found Hfirst Hb H1 1 (mkPC 6 1 6 "A" 1 "A" 6). }
  pose proof (Hnext 1 ltac:(lia) E1 H1) as H0. cbn in H0.
  rewrite scan_bits_cons by lia. destruct (Z.testbit rising 0) eqn:E0.
  { found Hfirst Hb H0 0 (mkPC 7 0 7 "A" 0 "A" 7). }
  pose proof (Hnext 0 ltac:(lia) E0 H0) as Hnone. cbn in Hnone.
  exfalso. unfold truthy in Ht. apply negb_true_iff, Z.eqb_neq in Ht.
  apply Ht, rising_none. intros b ?. apply Hnone. lia.
Qed.

Lemma on_mcp_int_cases pin w :
  let last := last_sw_state w in
  let state := default 0 (MCP23017.regs (io w) !! GPIOA) in
  (last = state /\ _on_mcp_int pin w = MkRun (inr ()) w []) \/
  (last <> state /\
   (forall bit, 0 <= bit <= 7 -> rising_edge last state bit = false) /\
   _on_mcp_int pin w = write (set_last_sw_state state) w) \/
  (exists pc, first_released last state pc /\
     _on_mcp_int pin w =
     (select_pc (index pc);; write (set_last_sw_state state)) w).
Proof.
  cbv zeta. unfold _on_mcp_int.
  rewrite (bind_ret_l (sleep_ms debounce_ms)) by reflexivity.
  rewrite (run_bind_pure _ _ _ _ (on_io_read_gpioa w)).
  rewrite bind_gets.
  set (last := last_sw_state w).
  set (state := default 0 (MCP23017.regs (io w) !! GPIOA)).
  destruct (Z.lxor last state =? 0) eqn:E.
  - left. apply Z.eqb_eq, Z.lxor_eq in E. split; [exact E|reflexivity].
  - right. apply Z.eqb_neq in E. rewrite bind_gets. fold last.
    destruct (truthy (Z.land (Z.land (Z.lnot last) state) 0xFF)) eqn:T.
    + right. destruct (scan_bits_first last state w T) as (pc & Hf & Hs).
      exists pc. split; [exact Hf|]. apply bind_cong. exact Hs.
    + left. split; [intros Heq; apply E; rewrite Heq; apply Z.lxor_nilpotent|].
      split; [|now apply bind_ret_l].
      intros bit Hb. rewrite <- rising_bits by exact Hb.
      unfold truthy in T. apply negb_false_iff, Z.eqb_eq in T.
      rewrite T. apply Z.bits_0.
Qed.

Lemma set_last_route_inv v w : route_inv w -> route_inv (set_last_sw_state v w).
Proof. open_state w. exact id. Qed.

Lemma set_last_led_inv v w : led_inv w -> led_inv (set_last_sw_state v w).
Proof. open_state w. exact id. Qed.

Lemma select_then_store idx v w :
  let r := (select_pc idx;; write (set_last_sw_state v)) w in
  let d := select_pc idx w in
  result r = inr () /\ final r = set_last_sw_state v (final d) /\
  trace r = trace d ++ [set_last_sw_state v (final d)].
Proof.
  cbv zeta. destruct (select_pc_result idx w) as (Hr & _).
  rewrite (run_bind _ _ _ _ Hr). repeat split.
Qed.

Lemma on_mcp_int_result pin w :
  let r := _on_mcp_int pin w in
  result r = inr () /\
  last_sw_state (final r) = default 0 (MCP23017.regs (io w) !! GPIOA) /\
  (route_inv w -> route_inv (final r)) /\ (led_inv w -> led_inv (final r)).
Proof.
  cbv zeta.
  destruct (on_mcp_int_cases pin w)
    as [(He & ->)|[(_ & _ & ->)|(pc & _ & ->)]].
  - cbn [result final]. auto.
  - cbn [write result final]. split; [reflexivity|]. split; [reflexivity|].
    split; [apply set_last_route_inv|apply set_last_led_inv].
  - destruct (select_then_store (index pc)
                (default 0 (MCP23017.regs (io w) !! GPIOA)) w) as (-> & -> & _).
    destruct (select_pc_result (index pc) w) as (_ & _ & Hl & _).
    split; [reflexivity|]. split; [reflexivity|].
    split; [intros; now apply set_last_route_inv, select_pc_route_inv|].
    intros _. now apply set_last_led_inv.
Qed.

(** ** Start-up and the reachable states *)

Lemma bind_final {S A B} (m : M S A) (k : A -> M S B) (s : S) (a : A) :
  result (m s) = inr a ->
  result ((m ≫= k) s) = result (k a (final (m s))) /\
  final ((m ≫= k) s) = final (k a (final (m s))).
Proof. intros H. now rewrite (run_bind _ _ _ _ H). Qed.

Lemma init_ends_disconnected debug w0 :
  exists w', result (__init__ debug w0) = result (disconnect w') /\
             final (__init__ debug w0) = final (disconnect w').
Proof.
  unfold __init__.
  repeat (match goal with
          | |- context [(?m ≫= ?k) ?s] =>
              lazymatch k with
              | (fun _ => _update_leds) => fail
              | _ => idtac
              end;
              let H := fresh in
              assert (exists a, result (m s) = inr a) as [? H]
                by (eexists; lazy; reflexivity);
              destruct (bind_final m k s _ H) as [-> ->]; clear H
          end).
  eexists. split; reflexivity.
Qed.

Lemma init_result debug w0 :
  let r := __init__ debug w0 in
  result r = inr () /\ route_inv (final r) /\ led_inv (final r) /\
  all_off (final r) /\ selected (final r) = -1.
Proof.
  cbv zeta. destruct (init_ends_disconnected debug w0) as (w' & -> & ->).
  destruct (disconnect_run w') as (Hr & Hf & _).
  destruct (disconnect_route_inv w') as (Hi & Ha & Hs).
  split; [exact Hr|]. split; [exact Hi|]. split; [|split; [exact Ha|exact Hs]].
  rewrite Hf. apply leds_shown_led_inv.
Qed.

Lemma panel_route_inv v w : route_inv w -> route_inv (panel v w).
Proof. open_state w. exact id. Qed.

Lemma panel_led_inv v w : led_inv w -> led_inv (panel v w).
Proof.
  open_state w. unfold led_inv, MCP23017.olatb, panel. cbn.
  intros H. now rewrite lookup_insert_ne.
Qed.

Lemma reachable_inv w : reachable w -> route_inv w /\ led_inv w.
Proof.
  induction 1 as [w0 debug _|w v _ [IHr IHl] _|w idx _ [IHr IHl] _
                 |w _ [IHr IHl] _|w pin _ [IHr IHl] _].
  - destruct (init_result debug w0) as (_ & Hr & Hl & _). now split.
  - split; [now apply panel_route_inv|now apply panel_led_inv].
  - split; [now apply select_pc_route_inv|apply select_pc_result].
  - split; [apply disconnect_route_inv|].
    destruct (disconnect_run w) as (_ & -> & _). apply leds_shown_led_inv.
  - destruct (on_mcp_int_result pin w) as (_ & _ & Hr & Hl). split; auto.
Qed.

(** * Properties of the specification *)

(** C1: selecting a valid port [p1] and then another valid port [p2] never
    passes through a sampled state in which the power lines of two PCs are
    on together; at every single write of both routing sequences the decoder
    address lines change only while the decoder is and stays disabled, and
    the decoder is switched on only once the address of the target is on the
    lines.  From a state that satisfies the route invariant, the only power
    lines seen on during the change to [p2] are those of [p1] and [p2]. *)
Theorem C1_glitch_free_switch (w : Usb8Selector) (p1 p2 : Z) :
  0 <= p1 <= 7 -> 0 <= p2 <= 7 -> p1 <> p2 ->
  let r1 := select_pc p1 w in
  let r2 := select_pc p2 (final r1) in
  result r1 = inr () /\ result r2 = inr () /\
  final r1 = last_state w (trace r1) /\
  Forall (fun s => forall pa pb, pa ∈ pcs -> pb ∈ pcs ->
            vbus_on s pa = true -> vbus_on s pb = true -> pa = pb)
         (w :: trace r1 ++ trace r2) /\
  Forall (fun p => safe_step p1 p.1 p.2) (steps w (trace r1)) /\
  Forall (fun p => safe_step p2 p.1 p.2) (steps (final r1) (trace r2)) /\
  (route_inv w ->
   Forall (fun s => forall pc, pc ∈ pcs -> vbus_on s pc = true ->
             index pc = p1 \/ index pc = p2)
          (trace r2)).
Proof.
  intros H1 H2 Hne r1 r2.
  destruct (select_pc_result p1 w) as (Hr1 & Hl1 & _ & _ & Hs1).
  destruct (select_pc_result p2 (final r1)) as (Hr2 & _).
  split; [exact Hr1|]. split; [exact Hr2|]. split; [exact Hl1|].
  split; [|split; [now apply select_pc_steps|split; [now apply select_pc_steps|]]].
  - apply Forall_forall. intros s _ pa pb. apply vbus_on_unique.
  - intros Hinv.
    assert (route_inv (final r1)) as Hinv1 by now apply select_pc_route_inv.
    pose proof (select_pc_power p2 (final r1) H2) as Hp.
    eapply Forall_impl; [exact Hp|]. cbv beta.
    intros s Hs pc Hin Hv.
    apply vbus_on_address in Hv as [He Ha].
    rewrite <- (pcs_hc_addr_index pc Hin).
    destruct (Hs (hc_addr pc)) as [Hold|Hnew].
    + unfold HC137.Y. now rewrite He, Ha, Z.eqb_refl.
    + left. apply andb_true_iff in Hold as [_ Hold]. apply Z.eqb_eq in Hold.
      rewrite <- Hold. fold r1 in Hs1.
      assert (selected (final r1) = p1) as Hsel.
      { rewrite Hs1. destruct H1 as [Ha1 Hb1].
        apply Z.leb_le in Ha1, Hb1. now rewrite Ha1, Hb1. }
      destruct Hinv1 as (_ & _ & Hrt). rewrite Hsel in Hrt.
      destruct (list_getitem_pcs p1 w H1) as (pc1 & Hl & _ & Hh & _).
      destruct (Hrt pc1 H1 Hl) as (Haddr & _). congruence.
    + now right.
Qed.

Lemma C1_witness :
  0 <= 2 <= 7 /\ 0 <= 5 <= 7 /\ 2 <> 5 /\
  result (select_pc 5 (final (select_pc 2 power_up))) = inr ().
Proof.
  assert (0 <= 2 <= 7) as H1 by lia.
  assert (0 <= 5 <= 7) as H2 by lia.
  assert (2 <> 5) as H3 by lia.
  exact (conj H1 (conj H2 (conj H3
           (proj1 (proj2 (C1_glitch_free_switch power_up 2 5 H1 H2 H3)))))).
Defined.

(** C2: in every state the program can be in between two calls the route
    invariant holds, and it holds again after every public operation:
    [select_pc] with any integer, [disconnect] and the interrupt handler
    all return normally into a state where a selected PC [p] has exactly the
    device settings of its table entry (decoder address, TS3 side, select
    value of its own 4:1 switch, that switch alone enabled, TS3 and decoder
    enabled) and where no selection means every device disabled. *)
Theorem C2_route_invariant (w : Usb8Selector) :
  reachable w ->
  route_inv w /\
  (forall idx, result (select_pc idx w) = inr () /\
               route_inv (final (select_pc idx w))) /\
  (result (disconnect w) = inr () /\ route_inv (final (disconnect w))) /\
  (forall pin, result (_on_mcp_int pin w) = inr () /\
               route_inv (final (_on_mcp_int pin w))).
Proof.
  intros Hre. destruct (reachable_inv w Hre) as [Hinv _].
  split; [exact Hinv|]. split; [|split].
  - intros idx. split; [apply select_pc_result|now apply select_pc_route_inv].
  - split; [apply disconnect_run|apply disconnect_route_inv].
  - intros pin. destruct (on_mcp_int_result pin w) as (Hr & _ & Hi & _). auto.
Qed.

Lemma C2_witness :
  reachable booted /\ route_inv (final (select_pc 6 booted)).
Proof.
  assert (reachable booted) as H
    by (apply reach_init; vm_compute; reflexivity).
  exact (conj H (proj2 (proj1 (proj2 (C2_route_invariant booted H)) 6))).
Defined.

(** C3: [select_pc idx] always returns normally and is one of three runs:
    outside 0..7 it is the disconnect sequence followed by the LED refresh;
    for the PC already selected it is the LED refresh alone; for any other
    valid index it is the routing sequence of the table entry [pcs[idx]]
    followed by the LED refresh.  In every case the last write is the LED
    byte computed from the selection the call ends with. *)
Theorem C3_select_pc_behaviour (idx : Z) (w : Usb8Selector) :
  let r := select_pc idx w in
  result r = inr () /\
  (idx < 0 \/ 7 < idx -> r = (_disconnect_all;; _update_leds) w) /\
  (0 <= idx <= 7 -> idx = selected w -> r = _update_leds w) /\
  (0 <= idx <= 7 -> idx <> selected w ->
   exists pc, pcs !! Z.to_nat idx = Some pc /\ index pc = idx /\
              r = (_route_to_pc pc;; _update_leds) w) /\
  (exists before s, trace r = before ++ [leds_shown s] /\
                    final r = leds_shown s) /\
  MCP23017.olatb (io (final r)) = Some (led_byte (selected (final r))).
Proof.
  intros r. subst r.
  destruct (select_pc_result idx w) as (Hr & _ & Hled & _).
  split; [exact Hr|].
  destruct (select_pc_cases idx w)
    as [(Hn & E)|[(Hin & He & E)|(Hin & Hne & pc & Hl & Hi & _ & _ & E)]].
  - split; [intros _; exact E|]. split; [intros; lia|]. split; [intros; lia|].
    split; [|exact Hled]. rewrite E.
    destruct (disconnect_run w) as (_ & -> & ->). eauto.
  - split; [intros; lia|]. split; [intros; exact E|].
    split; [intros; contradiction|]. split; [|exact Hled].
    rewrite E, update_leds_run. exists [], w. split; reflexivity.
  - split; [intros; lia|]. split; [intros; contradiction|].
    split; [intros; exists pc; auto|]. split; [|exact Hled].
    rewrite E. destruct (route_leds_run pc w) as (_ & -> & ->). eauto.
Qed.

Lemma C3_witness :
  select_pc 9 power_up = (_disconnect_all;; _update_leds) power_up.
Proof.
  refine (proj1 (proj2 (C3_select_pc_behaviour 9 power_up)) _).
  right. lia.
Defined.

(** C4: after [select_pc p] for a valid [p] the LED bank holds a byte whose
    bit [led_bit] of the table entry of [p] is 0 and whose seven other bits
    are 1; after [disconnect], and after [select_pc] with an index outside
    0..7, the LED bank holds 0xFF and no route device is enabled. *)
Theorem C4_led_byte (w : Usb8Selector) :
  (forall p pc, 0 <= p <= 7 -> pcs !! Z.to_nat p = Some pc ->
     exists b, MCP23017.olatb (io (final (select_pc p w))) = Some b /\
               0 <= b < 256 /\
               forall i, 0 <= i <= 7 ->
                         Z.testbit b i = negb (i =? led_bit pc)) /\
  (MCP23017.olatb (io (final (disconnect w))) = Some 0xFF /\
   all_off (final (disconnect w))) /\
  (forall idx, idx < 0 \/ 7 < idx ->
     MCP23017.olatb (io (final (select_pc idx w))) = Some 0xFF /\
     all_off (final (select_pc idx w))).
Proof.
  assert (MCP23017.olatb (io (final (disconnect w))) = Some 0xFF /\
          all_off (final (disconnect w))) as Hd.
  { destruct (disconnect_route_inv w) as (_ & Ha & Hs).
    split; [|exact Ha].
    destruct (disconnect_run w) as (Hr & Hf & _).
    pose proof (leds_shown_led_inv (final (_disconnect_all w))) as Hl.
    rewrite <- Hf in Hl. unfold led_inv in Hl. now rewrite Hl, Hs. }
  split; [|split; [exact Hd|]].
  - intros p pc Hp Hl.
    destruct (select_pc_result p w) as (_ & _ & Hled & _ & Hs).
    unfold led_inv in Hled. rewrite Hs in Hled.
    destruct Hp as [H0 H7]. pose proof H0 as H0'. pose proof H7 as H7'.
    apply Z.leb_le in H0', H7'. rewrite H0', H7' in Hled. cbn [andb] in Hled.
    exists (led_byte p). split; [exact Hled|]. split.
    { pose proof (led_byte_byte p) as Hb.
      apply andb_true_iff in Hb as [Hb1 Hb2].
      apply Z.leb_le in Hb1. apply Z.ltb_lt in Hb2. lia. }
    revert Hl. cases_0_7 p; cbn; intros [= <-];
      intros i Hi; cases_0_7 i; reflexivity.
  - intros idx Hout.
    destruct (select_pc_cases idx w) as [(_ & ->)|[(Hin & _)|(Hin & _)]];
      [exact Hd|lia|lia].
Qed.

Lemma C4_witness :
  0 <= 4 <= 7 /\ pcs !! Z.to_nat 4 = Some (mkPC 4 3 4 "A" 3 "A" 4) /\
  exists b, MCP23017.olatb (io (final (select_pc 4 power_up))) = Some b /\
            0 <= b < 256 /\
            forall i, 0 <= i <= 7 -> Z.testbit b i = negb (i =? 4).
Proof.
  assert (0 <= 4 <= 7) as H1 by lia.
  assert (pcs !! Z.to_nat 4 = Some (mkPC 4 3 4 "A" 3 "A" 4)) as H2
    by reflexivity.
  exact (conj H1 (conj H2 (proj1 (C4_led_byte power_up) 4 _ H1 H2))).
Defined.

(** C5: the handler selects only on a release.  When no input bit went
    from 0 in [last_sw_state] to 1 in the sampled byte, the handler touches
    no device and no LED and changes nothing but [last_sw_state].  With
    [last_sw_state] = 0b11111111 an interrupt that samples 0b01111111
    therefore selects nothing, and the next interrupt, sampling 0b11111111,
    is exactly one [select_pc] of the PC whose switch bit is 7. *)
Theorem C5_release_edge_only (pin : Pin.t) (w : Usb8Selector) :
  let last := last_sw_state w in
  let state := default 0 (MCP23017.regs (io w) !! GPIOA) in
  let r := _on_mcp_int pin w in
  ((forall bit, 0 <= bit <= 7 -> rising_edge last state bit = false) ->
   result r = inr () /\ final r = set_last_sw_state state w /\
   (trace r = [] \/ trace r = [set_last_sw_state state w])) /\
  (last = 0xFF -> state = 0x7F ->
   result r = inr () /\ final r = set_last_sw_state 0x7F w /\
   trace r = [set_last_sw_state 0x7F w] /\
   forall pin',
     let w' := panel 0xFF (final r) in
     exists pc, pc ∈ pcs /\ sw_bit pc = 7 /\
       _on_mcp_int pin' w' =
       (select_pc (index pc);; write (set_last_sw_state 0xFF)) w' /\
       selected (final (_on_mcp_int pin' w')) = index pc).
Proof.
  intros last state r.
  assert ((forall bit, 0 <= bit <= 7 -> rising_edge last state bit = false) ->
          result r = inr () /\ final r = set_last_sw_state state w /\
          (last = state /\ trace r = [] \/
           last <> state /\ trace r = [set_last_sw_state state w])) as Hgen.
  { intros Hno. subst r.
    destruct (on_mcp_int_cases pin w)
      as [(He & ->)|[(Hne & _ & ->)|(pc & (Hin & Hr & _) & _)]].
    - cbn [result final trace]. split; [reflexivity|].
      split; [|left; now split].
      fold last state in He. subst last state. rewrite <- He.
      now destruct w.
    - cbn [write result final trace]. split; [reflexivity|].
      split; [reflexivity|]. right. now split.
    - exfalso. fold last state in Hr. rewrite Hno in Hr; [discriminate|].
      clear - Hin. each_pc Hin; cbn; lia. }
  split.
  - intros Hno. destruct (Hgen Hno) as (Hr & Hf & [[_ Ht]|[_ Ht]]); auto.
  - intros Hlast Hstate.
    assert (forall bit, 0 <= bit <= 7 -> rising_edge last state bit = false)
      as Hno.
    { intros bit Hb. rewrite Hlast, Hstate. unfold rising_edge.
      cases_0_7 bit; reflexivity. }
    destruct (Hgen Hno) as (Hr & Hf & [[He _]|[_ Ht]]); [lia|].
    rewrite Hstate in Hf, Ht.
    split; [exact Hr|]. split; [exact Hf|]. split; [exact Ht|].
    intros pin' w'.
    assert (last_sw_state w' = 0x7F) as Hl' by (subst w'; now rewrite Hf).
    assert (default 0 (MCP23017.regs (io w') !! GPIOA) = 0xFF) as Hs'.
    { subst w'. unfold panel. cbn [set_io io MCP23017.regs].
      now rewrite lookup_insert_eq. }
    destruct (on_mcp_int_cases pin' w')
      as [(He & _)|[(_ & Hno' & _)|(pc & (Hin & Hre & Hmin) & E)]].
    + rewrite Hl', Hs' in He. discriminate He.
    + rewrite Hl', Hs' in Hno'. specialize (Hno' 7 ltac:(lia)).
      discriminate Hno'.
    + rewrite Hl', Hs' in Hre, Hmin. rewrite Hs' in E.
      assert (sw_bit pc = 7) as H7.
      { clear - Hin Hre. each_pc Hin; first [reflexivity|discriminate Hre]. }
      exists pc. split; [exact Hin|]. split; [exact H7|]. split; [exact E|].
      rewrite E.
      destruct (select_then_store (index pc) 0xFF w') as (_ & -> & _).
      destruct (select_pc_result (index pc) w') as (_ & _ & _ & _ & Hsel).
      change (selected (set_last_sw_state 255 (final (select_pc (index pc) w'))))
        with (selected (final (select_pc (index pc) w'))).
      rewrite Hsel. clear - Hin. each_pc Hin; reflexivity.
Qed.

Lemma C5_witness :
  last_sw_state sw0_pressed = 0xFF /\
  default 0 (MCP23017.regs (io sw0_pressed) !! GPIOA) = 0x7F /\
  trace (_on_mcp_int false sw0_pressed) = [set_last_sw_state 0x7F sw0_pressed].
Proof.
  assert (last_sw_state sw0_pressed = 0xFF) as H1 by (vm_compute; reflexivity).
  assert (default 0 (MCP23017.regs (io sw0_pressed) !! GPIOA) = 0x7F) as H2
    by (vm_compute; reflexivity).
  exact (conj H1 (conj H2
           (proj1 (proj2 (proj2
              (proj2 (C5_release_edge_only false sw0_pressed) H1 H2)))))).
Defined.

(** C6: when the sampled byte has a rising edge on the switch bit of at
    least one PC (so also when it has one on two or more), the handler is
    exactly one [select_pc], followed by the update of [last_sw_state], and
    the PC selected is the one with the lowest index among all PCs of the
    table whose switch bit has a rising edge. *)
Theorem C6_lowest_index_wins (pin : Pin.t) (w : Usb8Selector) :
  let last := last_sw_state w in
  let state := default 0 (MCP23017.regs (io w) !! GPIOA) in
  (exists pc, pc ∈ pcs /\ rising_edge last state (sw_bit pc) = true) ->
  exists pc,
    pc ∈ pcs /\ rising_edge last state (sw_bit pc) = true /\
    (forall pc', pc' ∈ pcs -> rising_edge last state (sw_bit pc') = true ->
                 index pc <= index pc') /\
    _on_mcp_int pin w =
    (select_pc (index pc);; write (set_last_sw_state state)) w /\
    result (_on_mcp_int pin w) = inr () /\
    selected (final (_on_mcp_int pin w)) = index pc.
Proof.
  intros last state (pc0 & Hin0 & Hr0).
  destruct (on_mcp_int_cases pin w)
    as [(He & _)|[(_ & Hno & _)|(pc & (Hin & Hre & Hmin) & E)]].
  - exfalso. fold last state in He. rewrite He in Hr0.
    unfold rising_edge in Hr0. now destruct (Z.testbit state (sw_bit pc0)).
  - exfalso. fold last state in Hno. rewrite Hno in Hr0; [discriminate|].
    clear - Hin0. each_pc Hin0; cbn; lia.
  - exists pc. fold last state in Hre, Hmin, E.
    split; [exact Hin|]. split; [exact Hre|]. split; [exact Hmin|].
    split; [exact E|]. rewrite E.
    destruct (select_then_store (index pc) state w) as (-> & -> & _).
    split; [reflexivity|].
    destruct (select_pc_result (index pc) w) as (_ & _ & _ & _ & Hsel).
    change (selected (set_last_sw_state state (final (select_pc (index pc) w))))
      with (selected (final (select_pc (index pc) w))).
    rewrite Hsel. clear - Hin. each_pc Hin; reflexivity.
Qed.

(** Bits 7 and 6 are released in one sample: PC 0 wins over PC 1. *)
Lemma C6_witness :
  (exists pc, pc ∈ pcs /\
     rising_edge (last_sw_state two_released)
       (default 0 (MCP23017.regs (io two_released) !! GPIOA))
       (sw_bit pc) = true) /\
  exists pc, pc ∈ pcs /\
             selected (final (_on_mcp_int false two_released)) = index pc.
Proof.
  assert (exists pc, pc ∈ pcs /\
     rising_edge (last_sw_state two_released)
       (default 0 (MCP23017.regs (io two_released) !! GPIOA))
       (sw_bit pc) = true) as H.
  { exists (mkPC 1 6 1 "B" 2 "B" 1). split; [|vm_compute; reflexivity].
    unfold pcs. repeat constructor. }
  split; [exact H|].
  destruct (C6_lowest_index_wins false two_released H)
    as (pc & Hin & _ & _ & _ & _ & Hs).
  exists pc. split; [exact Hin|exact Hs].
Defined.

Example two_released_selects_pc0 :
  last_sw_state two_released = 0x3F /\
  selected (final (_on_mcp_int false two_released)) = 0 /\
  length (trace (_on_mcp_int false two_released)) = 17%nat.
Proof. vm_compute. repeat split. Qed.

(** C7: after every run of the handler, which always returns normally,
    [last_sw_state] equals the byte the handler read from GPIOA in that
    run; this includes the run that is discarded because no bit changed,
    which writes nothing at all. *)
Theorem C7_last_sample_resync (pin : Pin.t) (w : Usb8Selector) :
  let r := _on_mcp_int pin w in
  result r = inr () /\
  inr (last_sw_state (final r)) = result (on_io MCP23017.read_gpioa w) /\
  (Z.lxor (last_sw_state w) (default 0 (MCP23017.regs (io w) !! GPIOA)) = 0 ->
   trace r = [] /\ final r = w /\
   last_sw_state (final r) = default 0 (MCP23017.regs (io w) !! GPIOA)).
Proof.
  intros r. subst r.
  destruct (on_mcp_int_result pin w) as (Hr & Hl & _).
  split; [exact Hr|]. split; [now rewrite on_io_read_gpioa, Hl|].
  intros Hx. apply Z.lxor_eq in Hx.
  destruct (on_mcp_int_cases pin w)
    as [(_ & E)|[(Hne & _)|(pc & (_ & Hre & _) & _)]].
  - rewrite E. cbn [trace final]. auto.
  - contradiction.
  - exfalso. rewrite Hx in Hre. unfold rising_edge in Hre.
    now destruct (Z.testbit _ (sw_bit pc)).
Qed.

Lemma C7_witness :
  Z.lxor (last_sw_state booted)
         (default 0 (MCP23017.regs (io booted) !! GPIOA)) = 0 /\
  last_sw_state (final (_on_mcp_int false booted)) =
  default 0 (MCP23017.regs (io booted) !! GPIOA).
Proof.
  assert (Z.lxor (last_sw_state booted)
            (default 0 (MCP23017.regs (io booted) !! GPIOA)) = 0) as H
    by (vm_compute; reflexivity).
  exact (conj H (proj2 (proj2 (proj2 (proj2
           (C7_last_sample_resync false booted)) H)))).
Defined.

(** C8: in every state the program can be in with a valid PC [p] selected,
    [select_pc p] returns normally and changes nothing: the state it ends
    in, with every control line, [selected] and the LED byte, is the state
    it started from, and so is every state sampled on the way. *)
Theorem C8_select_same_noop (w : Usb8Selector) (p : Z) :
  reachable w -> 0 <= p <= 7 -> selected w = p ->
  let r := select_pc p w in
  result r = inr () /\ final r = w /\ Forall (fun s => s = w) (trace r).
Proof.
  intros Hre Hp Hs r. subst r.
  destruct (reachable_inv w Hre) as [_ Hled].
  destruct (select_pc_cases p w)
    as [(Hn & _)|[(_ & _ & ->)|(_ & Hne & _)]]; [contradiction| |congruence].
  rewrite update_leds_run. cbn [result final trace].
  assert (leds_shown w = w) as ->.
  { clear - Hled. open_state w. unfold leds_shown, led_inv, MCP23017.olatb in *.
    cbn in *. now rewrite insert_id. }
  split; [reflexivity|]. split; [reflexivity|].
  apply Forall_cons_2; [reflexivity|apply Forall_nil_2].
Qed.

Lemma C8_witness :
  reachable pc3_selected /\ 0 <= 3 <= 7 /\ selected pc3_selected = 3 /\
  final (select_pc 3 pc3_selected) = pc3_selected.
Proof.
  assert (reachable pc3_selected) as H1
    by (apply reach_select; [apply reach_init|]; vm_compute; reflexivity).
  assert (0 <= 3 <= 7) as H2 by lia.
  assert (selected pc3_selected = 3) as H3 by (vm_compute; reflexivity).
  exact (conj H1 (conj H2 (conj H3
           (proj1 (proj2 (C8_select_same_noop pc3_selected 3 H1 H2 H3)))))).
Defined.

(** C9: [disconnect] returns normally from any state and is idempotent: a
    second [disconnect] ends in the very state the first one ended in.  In
    that state nothing is selected, no route device is enabled, no PC has
    its power line on and the LED bank holds 0xFF. *)
Theorem C9_disconnect_idempotent (w : Usb8Selector) :
  let r1 := disconnect w in
  let r2 := disconnect (final r1) in
  result r1 = inr () /\ result r2 = inr () /\ final r2 = final r1 /\
  selected (final r1) = -1 /\ all_off (final r1) /\
  (forall pc, vbus_on (final r1) pc = false) /\
  MCP23017.olatb (io (final r1)) = Some 0xFF.
Proof.
  intros r1 r2. subst r1 r2.
  destruct (disconnect_run w) as (Hr1 & Hf1 & _).
  destruct (disconnect_run (final (disconnect w))) as (Hr2 & Hf2 & _).
  destruct (disconnect_route_inv w) as (_ & Ha & Hs).
  split; [exact Hr1|]. split; [exact Hr2|].
  split; [|split; [exact Hs|split; [exact Ha|split]]].
  - rewrite Hf2, Hf1. clear. open_state w. run. cbn [led_byte Z.ltb Z.compare].
    do 2 f_equal. apply insert_insert_eq.
  - intros pc. destruct Ha as (_ & _ & _ & Ha). unfold vbus_on, HC137.Y.
    now rewrite Ha.
  - pose proof (leds_shown_led_inv (final (_disconnect_all w))) as Hl.
    rewrite <- Hf1 in Hl. unfold led_inv in Hl. now rewrite Hl, Hs.
Qed.

(** C10: [PI3USB14.select] and [HC137.select_addr] return normally for
    every integer; the select lines then encode the argument clamped into
    0..3, the address lines the argument clamped into 0..7, and the enable
    line of the device is left as it was at every write. *)
Theorem C10_select_clamps (x : Z) :
  (forall d : PI3USB14.t,
     let r := PI3USB14.select x d in
     result r = inr () /\
     PI3USB14.port (final r) = Z.max 0 (Z.min 3 x) /\
     0 <= PI3USB14.port (final r) <= 3 /\
     Forall (fun s => PI3USB14.en_n s = PI3USB14.en_n d /\
                      0 <= PI3USB14.port s <= 3) (d :: trace r)) /\
  (forall d : HC137.t,
     let r := HC137.select_addr x d in
     result r = inr () /\
     HC137.address (final r) = Z.max 0 (Z.min 7 x) /\
     0 <= HC137.address (final r) <= 7 /\
     Forall (fun s => HC137.e1_n s = HC137.e1_n d /\
                      0 <= HC137.address s <= 7) (d :: trace r)).
Proof.
  split.
  - intros [en s1 s0]. unfold PI3USB14.select.
    assert (0 <= Z.max 0 (Z.min 3 x) <= 3) as Hv by lia.
    generalize dependent (Z.max 0 (Z.min 3 x)). intros v Hv. cbv zeta.
    assert (v = 0 \/ v = 1 \/ v = 2 \/ v = 3) as Hc by lia.
    destruct Hc as [->|[->|[-> | ->]]]; destruct s1, s0;
      vm_compute; repeat split; try discriminate;
      repeat constructor; try discriminate.
  - intros [e a2 a1 a0]. unfold HC137.select_addr.
    assert (0 <= Z.max 0 (Z.min 7 x) <= 7) as Hv by lia.
    generalize dependent (Z.max 0 (Z.min 7 x)). intros v Hv. cbv zeta.
    cases_0_7 v; destruct a2, a1, a0;
      vm_compute; repeat split; try discriminate;
      repeat constructor; try discriminate.
Qed.


(** * Further properties of the code *)

(** ** Every write, seen from the lines of the devices *)

Lemma enables_nothing_ordered s s' : enables_nothing s s' -> ordered_step s s'.
Proof.
  intros (Ht & Ha & Hb & Hh). unfold ordered_step.
  split; [intros H0 H1; apply Ha in H1; congruence|].
  split; [intros H0 H1; apply Hb in H1; congruence|].
  split; [intros H0 H1; apply Hh in H1; congruence|].
  intros H0 H1; apply Ht in H1; congruence.
Qed.

Lemma route_quiet pc w :
  Forall (fun p => quiet_step p.1 p.2 /\ ordered_step p.1 p.2)
         (steps w (trace (_route_to_pc pc w))).
Proof.
  open_state w. run.
  destruct (String.eqb (mux_side pc) "A"), dm; cbv beta iota.
  all: abstract_levels.
  all: all_steps ltac:(step_facts).
Qed.

Lemma route_muxes pc w :
  Forall (fun s => both_muxes_on s = true -> both_muxes_on w = true)
         (trace (_route_to_pc pc w)).
Proof.
  open_state w. run.
  destruct (String.eqb (mux_side pc) "A"), dm; cbv beta iota.
  all: abstract_levels.
  all: all_steps ltac:(unfold both_muxes_on, PI3USB14.enabled; cbn;
                       intros; first [assumption|discriminate]).
Qed.

Lemma disconnect_all_quiet w :
  Forall (fun p => quiet_step p.1 p.2 /\ enables_nothing p.1 p.2)
         (steps w (trace (_disconnect_all w))).
Proof. open_state w. run. abstract_levels. all_steps ltac:(step_facts). Qed.

Lemma disconnect_all_muxes w :
  Forall (fun s => both_muxes_on s = true -> both_muxes_on w = true)
         (trace (_disconnect_all w)).
Proof.
  open_state w. run. abstract_levels.
  all_steps ltac:(unfold both_muxes_on, PI3USB14.enabled; cbn;
                  intros; first [assumption|discriminate]).
Qed.

Lemma leds_shown_quiet w :
  quiet_step w (leds_shown w) /\ enables_nothing w (leds_shown w).
Proof. open_state w. step_facts. Qed.

Lemma set_last_quiet v w :
  quiet_step w (set_last_sw_state v w) /\
  enables_nothing w (set_last_sw_state v w).
Proof. open_state w. step_facts. Qed.

Lemma Forall_steps_snoc {S} (P : S -> S -> Prop) (s x : S) (t : list S) :
  Forall (fun p => P p.1 p.2) (steps s t) -> P (last_state s t) x ->
  Forall (fun p => P p.1 p.2) (steps s (t ++ [x])).
Proof.
  intros Ht Hx. rewrite steps_app. apply Forall_app. split; [exact Ht|].
  cbn [steps]. apply Forall_cons_2; [exact Hx|apply Forall_nil_2].
Qed.

Lemma select_pc_ordered idx w :
  Forall (fun p => quiet_step p.1 p.2 /\ ordered_step p.1 p.2)
         (steps w (trace (select_pc idx w))).
Proof.
  assert (forall s, quiet_step s (leds_shown s) /\ ordered_step s (leds_shown s))
    as Hleds.
  { intros s. destruct (leds_shown_quiet s) as [Hq He].
    split; [exact Hq|now apply enables_nothing_ordered]. }
  destruct (select_pc_cases idx w)
    as [(_ & ->)|[(_ & _ & ->)|(_ & _ & pc & _ & _ & _ & _ & ->)]].
  - destruct (disconnect_run w) as (_ & _ & ->).
    apply (Forall_steps_snoc (fun a b => quiet_step a b /\ ordered_step a b)).
    + eapply Forall_impl; [apply disconnect_all_quiet|].
      intros p [Hq He]. split; [exact Hq|now apply enables_nothing_ordered].
    + destruct (disconnect_all_result w) as (_ & <- & _). apply Hleds.
  - rewrite update_leds_run. cbn [trace steps].
    apply Forall_cons_2; [cbn [fst snd]; apply Hleds|apply Forall_nil_2].
  - destruct (route_leds_run pc w) as (_ & _ & ->).
    apply (Forall_steps_snoc (fun a b => quiet_step a b /\ ordered_step a b)).
    + apply route_quiet.
    + destruct (route_result pc w) as (_ & <- & _). apply Hleds.
Qed.

Lemma select_pc_muxes idx w :
  Forall (fun s => both_muxes_on s = true -> both_muxes_on w = true)
         (trace (select_pc idx w)).
Proof.
  assert (forall t, Forall (fun s => both_muxes_on s = true ->
                                     both_muxes_on w = true) t ->
            Forall (fun s => both_muxes_on s = true -> both_muxes_on w = true)
                   (t ++ [leds_shown (last_state w t)])) as Hsnoc.
  { intros t Ht. apply Forall_app. split; [exact Ht|].
    apply Forall_cons_2; [|apply Forall_nil_2].
    change (both_muxes_on (leds_shown (last_state w t)))
      with (both_muxes_on (last_state w t)).
    apply (Forall_last_state
             (fun s => both_muxes_on s = true -> both_muxes_on w = true));
      [exact id|exact Ht]. }
  destruct (select_pc_cases idx w)
    as [(_ & ->)|[(_ & _ & ->)|(_ & _ & pc & _ & _ & _ & _ & ->)]].
  - destruct (disconnect_run w) as (_ & _ & ->).
    destruct (disconnect_all_result w) as (_ & -> & _).
    apply Hsnoc, disconnect_all_muxes.
  - rewrite update_leds_run. apply (Hsnoc []), Forall_nil_2.
  - destruct (route_leds_run pc w) as (_ & _ & ->).
    destruct (route_result pc w) as (_ & -> & _).
    apply Hsnoc, route_muxes.
Qed.

Lemma on_mcp_int_trace pin w :
  let state := default 0 (MCP23017.regs (io w) !! GPIOA) in
  trace (_on_mcp_int pin w) = [] \/
  trace (_on_mcp_int pin w) = [set_last_sw_state state w] \/
  exists idx, trace (_on_mcp_int pin w) =
              trace (select_pc idx w) ++
              [set_last_sw_state state (last_state w (trace (select_pc idx w)))].
Proof.
  cbv zeta.
  destruct (on_mcp_int_cases pin w)
    as [(_ & ->)|[(_ & _ & ->)|(pc & _ & ->)]].
  - now left.
  - right. now left.
  - right. right. exists (index pc).
    destruct (select_then_store (index pc)
                (default 0 (MCP23017.regs (io w) !! GPIOA)) w) as (_ & _ & ->).
    now destruct (select_pc_result (index pc) w) as (_ & <- & _).
Qed.

Lemma on_mcp_int_ordered pin w :
  Forall (fun p => quiet_step p.1 p.2 /\ ordered_step p.1 p.2)
         (steps w (trace (_on_mcp_int pin w))).
Proof.
  assert (forall v s, quiet_step s (set_last_sw_state v s) /\
                      ordered_step s (set_last_sw_state v s)) as Hlast.
  { intros v s. destruct (set_last_quiet v s) as [Hq He].
    split; [exact Hq|now apply enables_nothing_ordered]. }
  destruct (on_mcp_int_trace pin w) as [->|[->|(idx & ->)]].
  - apply Forall_nil_2.
  - cbn [steps]. apply Forall_cons_2; [cbn [fst snd]; apply Hlast|apply Forall_nil_2].
  - apply (Forall_steps_snoc (fun a b => quiet_step a b /\ ordered_step a b));
      [apply select_pc_ordered|apply Hlast].
Qed.

Lemma on_mcp_int_muxes pin w :
  Forall (fun s => both_muxes_on s = true -> both_muxes_on w = true)
         (trace (_on_mcp_int pin w)).
Proof.
  destruct (on_mcp_int_trace pin w) as [->|[->|(idx & ->)]].
  - apply Forall_nil_2.
  - apply Forall_cons_2; [exact id|apply Forall_nil_2].
  - pose proof (select_pc_muxes idx w) as Hs.
    apply Forall_app. split; [exact Hs|].
    apply Forall_cons_2; [|apply Forall_nil_2].
    change (both_muxes_on (set_last_sw_state
              (default 0 (MCP23017.regs (io w) !! GPIOA))
              (last_state w (trace (select_pc idx w)))))
      with (both_muxes_on (last_state w (trace (select_pc idx w)))).
    apply (Forall_last_state
             (fun s => both_muxes_on s = true -> both_muxes_on w = true));
      [exact id|exact Hs].
Qed.

Lemma disconnect_quiet w :
  Forall (fun p => quiet_step p.1 p.2 /\ enables_nothing p.1 p.2)
         (steps w (trace (disconnect w))).
Proof.
  destruct (disconnect_run w) as (_ & _ & ->).
  apply (Forall_steps_snoc (fun a b => quiet_step a b /\ enables_nothing a b));
    [apply disconnect_all_quiet|].
  destruct (disconnect_all_result w) as (_ & <- & _). apply leds_shown_quiet.
Qed.

Lemma init_quiet debug w0 :
  Forall (fun p => quiet_step p.1 p.2 /\ enables_nothing p.1 p.2)
         (steps w0 (trace (__init__ debug w0))).
Proof.
  open_state w0. run_init. abstract_levels. all_steps ltac:(step_facts).
Qed.

(** X1: in every public operation and in the start-up, the select line of
    the TS3, the select lines of either 4:1 switch and the address lines of
    the decoder are written only while the device they belong to is disabled
    before and after the write. *)
Theorem X1_select_lines_move_only_when_disabled (w : Usb8Selector) :
  (forall idx, Forall (fun p => quiet_step p.1 p.2)
                      (steps w (trace (select_pc idx w)))) /\
  Forall (fun p => quiet_step p.1 p.2) (steps w (trace (disconnect w))) /\
  (forall pin, Forall (fun p => quiet_step p.1 p.2)
                      (steps w (trace (_on_mcp_int pin w)))) /\
  (forall debug, Forall (fun p => quiet_step p.1 p.2)
                        (steps w (trace (__init__ debug w)))).
Proof.
  split; [|split; [|split]].
  - intros idx. eapply Forall_impl; [apply select_pc_ordered|]. now intros p [H _].
  - eapply Forall_impl; [apply disconnect_quiet|]. now intros p [H _].
  - intros pin. eapply Forall_impl; [apply on_mcp_int_ordered|]. now intros p [H _].
  - intros debug. eapply Forall_impl; [apply init_quiet|]. now intros p [H _].
Qed.

(** X2: at every write of [select_pc] and of the interrupt handler the
    devices come on in a fixed order: a 4:1 switch only while the other one
    and the TS3 are off, the decoder (VBUS) only while the TS3 is off, and
    the TS3 last, with the decoder on and exactly the 4:1 switch of its side
    on.  If the two 4:1 switches were not both on before the call, they are
    not both on in any sampled state. *)
Theorem X2_switching_order (w : Usb8Selector) :
  (forall idx,
     Forall (fun p => ordered_step p.1 p.2) (steps w (trace (select_pc idx w))) /\
     (both_muxes_on w = false ->
      Forall (fun s => both_muxes_on s = false) (trace (select_pc idx w)))) /\
  (forall pin,
     Forall (fun p => ordered_step p.1 p.2) (steps w (trace (_on_mcp_int pin w))) /\
     (both_muxes_on w = false ->
      Forall (fun s => both_muxes_on s = false) (trace (_on_mcp_int pin w)))).
Proof.
  assert (forall t, both_muxes_on w = false ->
            Forall (fun s => both_muxes_on s = true -> both_muxes_on w = true) t ->
            Forall (fun s => both_muxes_on s = false) t) as Hoff.
  { intros t Hw Ht. eapply Forall_impl; [exact Ht|]. cbv beta. intros s Hs.
    destruct (both_muxes_on s); [|reflexivity]. rewrite Hs in Hw; auto. }
  split.
  - intros idx. split.
    + eapply Forall_impl; [apply select_pc_ordered|]. now intros p [_ H].
    + intros Hw. apply Hoff; [exact Hw|apply select_pc_muxes].
  - intros pin. split.
    + eapply Forall_impl; [apply on_mcp_int_ordered|]. now intros p [_ H].
    + intros Hw. apply Hoff; [exact Hw|apply on_mcp_int_muxes].
Qed.

Lemma X2_witness :
  both_muxes_on booted = false /\
  Forall (fun s => both_muxes_on s = false) (trace (select_pc 5 booted)).
Proof.
  assert (both_muxes_on booted = false) as H by (vm_compute; reflexivity).
  exact (conj H (proj2 (proj1 (X2_switching_order booted) 5) H)).
Defined.

(** ** Start-up *)

Lemma on_mcp_int_unchanged pin w :
  last_sw_state w = default 0 (MCP23017.regs (io w) !! GPIOA) ->
  _on_mcp_int pin w = MkRun (inr ()) w [].
Proof.
  intros Heq.
  destruct (on_mcp_int_cases pin w)
    as [(_ & E)|[(Hne & _)|(pc & (_ & Hre & _) & _)]].
  - exact E.
  - contradiction.
  - exfalso. rewrite Heq in Hre. unfold rising_edge in Hre.
    now destruct (Z.testbit _ (sw_bit pc)).
Qed.

Lemma init_last_sw_state debug w0 :
  last_sw_state (final (__init__ debug w0)) =
  default 0 (MCP23017.regs (io w0) !! GPIOA).
Proof. open_state w0. run_init. now rewrite !lookup_insert_ne by done. Qed.

Lemma init_debug_mode debug w0 : debug_mode (final (__init__ debug w0)) = debug.
Proof. open_state w0. reflexivity. Qed.

Lemma init_regs debug w0 :
  let regs' := MCP23017.regs (io (final (__init__ debug w0))) in
  regs' !! GPIOA = MCP23017.regs (io w0) !! GPIOA /\
  regs' !! OLATB = Some 0xFF /\ regs' !! IODIRB = Some 0x00 /\
  regs' !! IODIRA = Some 0xFF /\ regs' !! GPPUA = Some 0xFF /\
  regs' !! GPINTENA = Some 0xFF /\ regs' !! INTCONA = Some 0x00 /\
  regs' !! DEFVALA = Some 0x00 /\ regs' !! IOCON = Some 0x20.
Proof.
  cbv zeta. open_state w0. run_init.
  split_and!; now simplify_map_eq.
Qed.

(** X3: the start-up returns normally from any power-up state and switches
    no device on at any write.  It ends with nothing selected, every route
    device disabled, no power line on and all LEDs off; the expander is
    configured (port A input with pull-ups and change interrupts, port B
    output); [last_sw_state] holds the switch inputs as they were read, so
    an interrupt that finds them unchanged does nothing. *)
Theorem X3_startup (debug : bool) (w0 : Usb8Selector) :
  let r := __init__ debug w0 in
  let regs' := MCP23017.regs (io (final r)) in
  result r = inr () /\
  Forall (fun p => enables_nothing p.1 p.2) (steps w0 (trace r)) /\
  debug_mode (final r) = debug /\ selected (final r) = -1 /\
  all_off (final r) /\ (forall pc, vbus_on (final r) pc = false) /\
  last_sw_state (final r) = default 0 (MCP23017.regs (io w0) !! GPIOA) /\
  regs' !! GPIOA = MCP23017.regs (io w0) !! GPIOA /\
  regs' !! OLATB = Some 0xFF /\ regs' !! IODIRB = Some 0x00 /\
  regs' !! IODIRA = Some 0xFF /\ regs' !! GPPUA = Some 0xFF /\
  regs' !! GPINTENA = Some 0xFF /\ regs' !! INTCONA = Some 0x00 /\
  regs' !! DEFVALA = Some 0x00 /\ regs' !! IOCON = Some 0x20 /\
  forall pin, _on_mcp_int pin (final r) = MkRun (inr ()) (final r) [].
Proof.
  cbv zeta.
  destruct (init_result debug w0) as (Hr & _ & _ & Hoff & Hsel).
  pose proof (init_regs debug w0) as Hregs. cbv zeta in Hregs.
  destruct Hregs as (Hgpio & H1 & H2 & H3 & H4 & H5 & H6 & H7 & H8).
  pose proof (init_last_sw_state debug w0) as Hlast.
  refine (conj Hr (conj _ (conj (init_debug_mode debug w0) (conj Hsel
            (conj Hoff (conj _ (conj Hlast (conj Hgpio (conj H1 (conj H2
            (conj H3 (conj H4 (conj H5 (conj H6 (conj H7 (conj H8 _)))))))))))))))).
  - eapply Forall_impl; [apply init_quiet|]. now intros p [_ H].
  - intros pc. destruct Hoff as (_ & _ & _ & Ha). unfold vbus_on, HC137.Y.
    now rewrite Ha.
  - intros pin. apply on_mcp_int_unchanged. now rewrite Hlast, Hgpio.
Qed.

(** ** What the operations leave alone *)

Lemma route_debug_mode pc w :
  debug_mode (final (_route_to_pc pc w)) = debug_mode w.
Proof.
  open_state w. run.
  destruct (String.eqb (mux_side pc) "A"), dm; reflexivity.
Qed.

Lemma disconnect_all_debug_mode w :
  debug_mode (final (_disconnect_all w)) = debug_mode w.
Proof. open_state w. reflexivity. Qed.

Lemma leds_shown_io w :
  io (leds_shown w) =
  MCP23017.mk (<[OLATB := led_byte (selected w)]> (MCP23017.regs (io w))).
Proof. reflexivity. Qed.

Lemma leds_shown_debug_mode w : debug_mode (leds_shown w) = debug_mode w.
Proof. reflexivity. Qed.

Lemma select_pc_frame idx w :
  let w' := final (select_pc idx w) in
  io w' = MCP23017.mk (<[OLATB := led_byte (selected w')]>
                         (MCP23017.regs (io w))) /\
  debug_mode w' = debug_mode w.
Proof.
  cbv zeta.
  destruct (select_pc_cases idx w)
    as [(_ & ->)|[(_ & _ & ->)|(_ & _ & pc & _ & _ & _ & _ & ->)]].
  - destruct (disconnect_run w) as (_ & -> & _).
    destruct (disconnect_all_result w) as (_ & _ & _ & _ & Hio & _).
    rewrite leds_shown_io, leds_shown_selected, leds_shown_debug_mode, Hio.
    split; [reflexivity|apply disconnect_all_debug_mode].
  - rewrite update_leds_run. cbn [final].
    rewrite leds_shown_io, leds_shown_selected. now split.
  - destruct (route_leds_run pc w) as (_ & -> & _).
    destruct (route_result pc w) as (_ & _ & _ & Hio & _).
    rewrite leds_shown_io, leds_shown_selected, leds_shown_debug_mode, Hio.
    split; [reflexivity|apply route_debug_mode].
Qed.

Lemma on_mcp_int_final pin w :
  let state := default 0 (MCP23017.regs (io w) !! GPIOA) in
  final (_on_mcp_int pin w) = w \/
  final (_on_mcp_int pin w) = set_last_sw_state state w \/
  exists pc, first_released (last_sw_state w) state pc /\
             final (_on_mcp_int pin w) =
             set_last_sw_state state (final (select_pc (index pc) w)).
Proof.
  cbv zeta.
  destruct (on_mcp_int_cases pin w)
    as [(_ & ->)|[(_ & _ & ->)|(pc & Hf & ->)]].
  - now left.
  - right. now left.
  - right. right. exists pc. split; [exact Hf|].
    now destruct (select_then_store (index pc)
                    (default 0 (MCP23017.regs (io w) !! GPIOA)) w)
      as (_ & -> & _).
Qed.

Lemma select_pc_regs idx w reg :
  reg <> OLATB ->
  let w' := final (select_pc idx w) in
  MCP23017.regs (io w') !! reg = MCP23017.regs (io w) !! reg /\
  debug_mode w' = debug_mode w /\ last_sw_state w' = last_sw_state w.
Proof.
  intros Hreg. cbv zeta. destruct (select_pc_frame idx w) as [Hio Hd].
  destruct (select_pc_result idx w) as (_ & _ & _ & Hl & _).
  rewrite Hio. cbn [MCP23017.regs].
  rewrite lookup_insert_ne by congruence. auto.
Qed.

Lemma on_mcp_int_regs pin w reg :
  reg <> OLATB ->
  let w' := final (_on_mcp_int pin w) in
  MCP23017.regs (io w') !! reg = MCP23017.regs (io w) !! reg /\
  debug_mode w' = debug_mode w.
Proof.
  intros Hreg. cbv zeta.
  destruct (on_mcp_int_final pin w) as [->|[->|(pc & _ & ->)]].
  - now split.
  - now split.
  - destruct (select_pc_regs (index pc) w reg Hreg) as (Hr & Hd & _).
    now split.
Qed.

(** X4: of the expander registers, [select_pc], [disconnect] and the
    interrupt handler write OLATB only: every other register, the switch
    inputs included, reads after the call as before it.  They also leave
    [debug_mode] alone, and the two calls leave [last_sw_state] alone. *)
Theorem X4_only_olatb_written (w : Usb8Selector) (reg : Z) :
  reg <> OLATB ->
  (forall idx,
     let w' := final (select_pc idx w) in
     MCP23017.regs (io w') !! reg = MCP23017.regs (io w) !! reg /\
     debug_mode w' = debug_mode w /\ last_sw_state w' = last_sw_state w) /\
  (let w' := final (disconnect w) in
   MCP23017.regs (io w') !! reg = MCP23017.regs (io w) !! reg /\
   debug_mode w' = debug_mode w /\ last_sw_state w' = last_sw_state w) /\
  (forall pin,
     let w' := final (_on_mcp_int pin w) in
     MCP23017.regs (io w') !! reg = MCP23017.regs (io w) !! reg /\
     debug_mode w' = debug_mode w).
Proof.
  intros Hreg.
  split; [intros idx; now apply select_pc_regs|]. split.
  - cbv zeta. destruct (disconnect_run w) as (_ & -> & _).
    destruct (disconnect_all_result w) as (_ & _ & _ & _ & Hio & Hl).
    rewrite leds_shown_io, leds_shown_debug_mode, leds_shown_last_sw_state, Hio.
    cbn [MCP23017.regs]. rewrite lookup_insert_ne by congruence.
    split; [reflexivity|]. split; [apply disconnect_all_debug_mode|exact Hl].
  - intros pin. now apply on_mcp_int_regs.
Qed.

Lemma X4_witness :
  GPIOA <> OLATB /\
  MCP23017.regs (io (final (select_pc 1 booted))) !! GPIOA =
  MCP23017.regs (io booted) !! GPIOA.
Proof.
  assert (GPIOA <> OLATB) as H by discriminate.
  exact (conj H (proj1 (proj1 (X4_only_olatb_written booted GPIOA H) 1))).
Defined.

(** X5: a second interrupt with the switch inputs unchanged does nothing:
    whatever the first run of the handler did, the next run returns at once
    without a single write. *)
Theorem X5_repeated_interrupt_is_discarded (pin pin' : Pin.t) (w : Usb8Selector) :
  let w' := final (_on_mcp_int pin w) in
  _on_mcp_int pin' w' = MkRun (inr ()) w' [].
Proof.
  cbv zeta. apply on_mcp_int_unchanged.
  destruct (on_mcp_int_result pin w) as (_ & -> & _).
  assert (GPIOA <> OLATB) as H by discriminate.
  now destruct (on_mcp_int_regs pin w GPIOA H) as [-> _].
Qed.

(** ** The LEDs, the power lines and the selection *)

Lemma reachable_selected w :
  reachable w ->
  (selected w = -1 /\ all_off w) \/
  (exists pc, pc ∈ pcs /\ selected w = index pc /\ routed_to pc w).
Proof.
  intros Hre. destruct (reachable_inv w Hre) as [(Hsel & Hoff & Hrt) _].
  destruct Hsel as [Hs|Hs]; [left; auto|right].
  destruct (list_getitem_pcs (selected w) w Hs) as (pc & Hl & Hi & _).
  exists pc. destruct (pcs_lookup_index _ _ Hs Hl) as [Hin _]. auto.
Qed.

(** X6: in every state the program can be in between two calls, the LED
    bank holds one byte, and for every PC of the table these three say the
    same: its LED is lit (its bit in the byte is 0), it is the selected PC,
    and its power line is on. *)
Theorem X6_led_shows_power (w : Usb8Selector) :
  reachable w ->
  exists b, MCP23017.olatb (io w) = Some b /\ 0 <= b < 256 /\
    forall pc, pc ∈ pcs ->
      (Z.testbit b (led_bit pc) = false <-> selected w = index pc) /\
      (vbus_on w pc = true <-> selected w = index pc).
Proof.
  intros Hre. destruct (reachable_inv w Hre) as [_ Hled].
  exists (led_byte (selected w)). split; [exact Hled|]. split.
  { pose proof (led_byte_byte (selected w)) as Hb.
    apply andb_true_iff in Hb as [Hb1 Hb2].
    apply Z.leb_le in Hb1. apply Z.ltb_lt in Hb2. lia. }
  intros pc Hin.
  destruct (reachable_selected w Hre)
    as [(Hs & _ & _ & _ & Hoff)|(pc' & Hin' & Hs & Haddr & _ & _ & _ & _ & _ & Hen)].
  - rewrite Hs. unfold vbus_on, HC137.Y. rewrite Hoff.
    clear - Hin. each_pc Hin; (split; split; intros H; discriminate H).
  - rewrite Hs. unfold vbus_on, HC137.Y. rewrite Hen, Haddr.
    clear - Hin Hin'. each_pc Hin; each_pc Hin';
      (split; split; intros H; first [reflexivity|discriminate H]).
Qed.

Lemma X6_witness :
  reachable pc3_selected /\
  exists b, MCP23017.olatb (io pc3_selected) = Some b /\ 0 <= b < 256.
Proof.
  assert (reachable pc3_selected) as H
    by (apply reach_select; [apply reach_init|]; vm_compute; reflexivity).
  split; [exact H|].
  destruct (X6_led_shows_power pc3_selected H) as (b & Hb & Hr & _).
  exists b. split; [exact Hb|exact Hr].
Defined.

(** ** The switch panel *)

Lemma panel_last_sw_state v w : last_sw_state (panel v w) = last_sw_state w.
Proof. reflexivity. Qed.

Lemma panel_sample v w :
  default 0 (MCP23017.regs (io (panel v w)) !! GPIOA) = v.
Proof.
  unfold panel. cbn [set_io io MCP23017.regs]. now rewrite lookup_insert_eq.
Qed.

Lemma panel_selected v w : selected (panel v w) = selected w.
Proof. reflexivity. Qed.

Lemma set_last_panel_hw v u w :
  let w' := set_last_sw_state v (panel u w) in
  ts3 w' = ts3 w /\ muxA w' = muxA w /\ muxB w' = muxB w /\
  hc137 w' = hc137 w /\ selected w' = selected w /\
  MCP23017.olatb (io w') = MCP23017.olatb (io w).
Proof.
  cbv zeta. open_state w. unfold MCP23017.olatb, panel. cbn.
  now rewrite lookup_insert_ne by discriminate.
Qed.

(** X7: pressing one switch and releasing it selects its PC.  From any
    state the program can be in with every switch released in the last
    sample, the interrupt for the press of the switch of [pc] changes no
    control line, no LED and not the selection; the interrupt for its
    release ends with [pc] selected and the devices set as its table entry
    asks. *)
Theorem X7_press_then_release_selects (pin pin' : Pin.t) (w : Usb8Selector) (pc : PC) :
  reachable w -> last_sw_state w = 0xFF -> pc ∈ pcs ->
  let r1 := _on_mcp_int pin (panel (held_down pc) w) in
  let r2 := _on_mcp_int pin' (panel 0xFF (final r1)) in
  result r1 = inr () /\ result r2 = inr () /\
  (ts3 (final r1) = ts3 w /\ muxA (final r1) = muxA w /\
   muxB (final r1) = muxB w /\ hc137 (final r1) = hc137 w /\
   selected (final r1) = selected w /\
   MCP23017.olatb (io (final r1)) = MCP23017.olatb (io w)) /\
  selected (final r2) = index pc /\ routed_to pc (final r2) /\
  last_sw_state (final r2) = 0xFF.
Proof.
  intros Hre Hlast Hin r1 r2.
  destruct (reachable_inv w Hre) as [Hinv _].
  set (w0 := panel (held_down pc) w) in *.
  assert (last_sw_state w0 = 0xFF) as Hl0 by exact Hlast.
  assert (default 0 (MCP23017.regs (io w0) !! GPIOA) = held_down pc) as Hs0
    by apply panel_sample.
  destruct (on_mcp_int_result pin w0) as (Hr1 & Hl1 & Hi1 & _).
  fold r1 in Hr1, Hl1, Hi1. rewrite Hs0 in Hl1.
  assert (final r1 = set_last_sw_state (held_down pc) w0) as Hf1.
  { subst r1. destruct (on_mcp_int_cases pin w0)
      as [(He & _)|[(_ & _ & ->)|(pc' & (Hin' & Hre' & _) & _)]].
    - exfalso. rewrite Hl0, Hs0 in He. clear - Hin He.
      each_pc Hin; discriminate He.
    - now rewrite Hs0.
    - exfalso. rewrite Hl0, Hs0 in Hre'. clear - Hin Hin' Hre'.
      each_pc Hin; each_pc Hin'; discriminate Hre'. }
  set (w1 := panel 0xFF (final r1)) in *.
  assert (last_sw_state w1 = held_down pc) as Hl1' by exact Hl1.
  assert (default 0 (MCP23017.regs (io w1) !! GPIOA) = 0xFF) as Hs1
    by apply panel_sample.
  assert (route_inv w1) as Hinv1.
  { apply panel_route_inv, Hi1, panel_route_inv, Hinv. }
  destruct (on_mcp_int_result pin' w1) as (Hr2 & Hl2 & Hi2 & _).
  fold r2 in Hr2, Hl2, Hi2. rewrite Hs1 in Hl2.
  assert (selected (final r2) = index pc) as Hsel2.
  { subst r2. destruct (on_mcp_int_cases pin' w1)
      as [(He & _)|[(_ & Hno & _)|(pc' & (Hin' & Hre' & _) & ->)]].
    - exfalso. rewrite Hl1', Hs1 in He. clear - Hin He.
      each_pc Hin; discriminate He.
    - exfalso. rewrite Hl1', Hs1 in Hno. clear - Hin Hno.
      each_pc Hin;
        match goal with
        | H : context [held_down (mkPC _ ?b _ _ _ _ _)] |- _ =>
            specialize (H b ltac:(lia)); discriminate H
        end.
    - rewrite Hl1', Hs1 in Hre'.
      destruct (select_then_store (index pc') 0xFF w1) as (_ & Hf & _).
      rewrite Hs1, Hf.
      destruct (select_pc_result (index pc') w1) as (_ & _ & _ & _ & Hs).
      change (selected (set_last_sw_state 255 (final (select_pc (index pc') w1))))
        with (selected (final (select_pc (index pc') w1))).
      rewrite Hs. clear - Hin Hin' Hre'.
      each_pc Hin; each_pc Hin'; first [reflexivity|discriminate Hre']. }
  split; [exact Hr1|]. split; [exact Hr2|].
  split; [rewrite Hf1; apply set_last_panel_hw|].
  split; [exact Hsel2|]. split; [|exact Hl2].
  specialize (Hi2 Hinv1). destruct Hi2 as (_ & _ & Hrt).
  rewrite Hsel2 in Hrt. apply Hrt.
  - clear - Hin. each_pc Hin; cbn; lia.
  - clear - Hin. each_pc Hin; reflexivity.
Qed.

Lemma X7_witness :
  reachable booted /\ last_sw_state booted = 0xFF /\
  mkPC 5 2 5 "A" 2 "A" 5 ∈ pcs /\
  selected (final (_on_mcp_int false
     (panel 0xFF (final (_on_mcp_int false
        (panel (held_down (mkPC 5 2 5 "A" 2 "A" 5)) booted)))))) = 5.
Proof.
  assert (reachable booted) as H1 by (apply reach_init; vm_compute; reflexivity).
  assert (last_sw_state booted = 0xFF) as H2 by (vm_compute; reflexivity).
  assert (mkPC 5 2 5 "A" 2 "A" 5 ∈ pcs) as H3 by (unfold pcs; repeat constructor).
  exact (conj H1 (conj H2 (conj H3
    (proj1 (proj2 (proj2 (proj2
       (X7_press_then_release_selects false false booted _ H1 H2 H3)))))))).
Defined.

(** X8: the switch panel cannot disconnect.  From a state the program can
    be in with a PC selected, the interrupt handler always ends with a PC
    selected and with the decoder and the TS3 enabled, whatever the switch
    inputs are. *)
Theorem X8_panel_never_disconnects (pin : Pin.t) (w : Usb8Selector) :
  reachable w -> 0 <= selected w <= 7 ->
  let w' := final (_on_mcp_int pin w) in
  0 <= selected w' <= 7 /\
  HC137.enabled (hc137 w') = true /\ TS3USB30.enabled (ts3 w') = true.
Proof.
  intros Hre Hs. cbv zeta.
  assert (reachable (final (_on_mcp_int pin w))) as Hre'.
  { apply reach_int; [exact Hre|apply on_mcp_int_result]. }
  assert (0 <= selected (final (_on_mcp_int pin w)) <= 7) as Hs'.
  { destruct (on_mcp_int_final pin w) as [->|[->|(pc & (Hin & _) & ->)]].
    - exact Hs.
    - exact Hs.
    - change (selected (set_last_sw_state
                (default 0 (MCP23017.regs (io w) !! GPIOA))
                (final (select_pc (index pc) w))))
        with (selected (final (select_pc (index pc) w))).
      destruct (select_pc_result (index pc) w) as (_ & _ & _ & _ & ->).
      clear - Hin. each_pc Hin; cbn; lia. }
  split; [exact Hs'|].
  destruct (reachable_selected _ Hre')
    as [(Hn & _)|(pc & _ & _ & _ & _ & _ & _ & _ & Ht & Hh)]; [lia|].
  now split.
Qed.

Lemma X8_witness :
  reachable pc3_selected /\ 0 <= selected pc3_selected <= 7 /\
  0 <= selected (final (_on_mcp_int false pc3_selected)) <= 7.
Proof.
  assert (reachable pc3_selected) as H1
    by (apply reach_select; [apply reach_init|]; vm_compute; reflexivity).
  assert (0 <= selected pc3_selected <= 7) as H2 by (vm_compute; split; discriminate).
  exact (conj H1 (conj H2
           (proj1 (X8_panel_never_disconnects false pc3_selected H1 H2)))).
Defined.

(** ** The routing sequence on any entry *)

(** X9: [_route_to_pc] accepts any entry, also one that is not in the
    table.  It returns normally with [selected] set to the index of the
    entry as it is, the decoder enabled on the address clamped into 0..7,
    and the TS3 enabled.  The 4:1 switch enabled is A when [mux_side] is
    the string A and B for every other string; its select lines hold
    [mux_sel] clamped into 0..3, the other switch is disabled, and the TS3
    points to the side of the enabled switch.  [ts3_side], [sw_bit] and
    [led_bit] of the entry are not looked at. *)
Theorem X9_route_any_entry (pc : PC) (w : Usb8Selector) :
  let r := _route_to_pc pc w in
  let w' := final r in
  let side := if String.eqb (mux_side pc) "A" then "A" else "B" in
  result r = inr () /\ selected w' = index pc /\
  HC137.enabled (hc137 w') = true /\
  HC137.address (hc137 w') = Z.max 0 (Z.min 7 (hc_addr pc)) /\
  TS3USB30.enabled (ts3 w') = true /\ TS3USB30.side (ts3 w') = side /\
  PI3USB14.enabled (mux_of side w') = true /\
  PI3USB14.enabled (other_mux side w') = false /\
  PI3USB14.port (mux_of side w') = Z.max 0 (Z.min 3 (mux_sel pc)) /\
  forall sw led ts, _route_to_pc (with_ui pc sw led ts) w = r.
Proof.
  cbv zeta.
  destruct (route_result pc w) as (Hr & _ & Hs & _).
  split; [exact Hr|]. split; [exact Hs|].
  assert (0 <= Z.max 0 (Z.min 7 (hc_addr pc)) <= 7) as H7 by lia.
  assert (0 <= Z.max 0 (Z.min 3 (mux_sel pc)) <= 3) as H3 by lia.
  split; [|split; [|split; [|split; [|split; [|split; [|split]]]]]].
  8: { intros sw led ts. reflexivity. }
  all: open_state w; run.
  all: generalize dependent (Z.max 0 (Z.min 7 (hc_addr pc))); intros v7 H7.
  all: generalize dependent (Z.max 0 (Z.min 3 (mux_sel pc))); intros v3 H3.
  all: destruct (String.eqb (mux_side pc) "A"), dm; cbv beta iota.
  all: try reflexivity.
  all: first [ cases_0_7 v7; reflexivity
             | assert (v3 = 0 \/ v3 = 1 \/ v3 = 2 \/ v3 = 3) as Hc by lia;
               destruct Hc as [->|[->|[-> | ->]]]; reflexivity ].
Qed.

(** ** The LED byte for any index *)






(** ** The switch-bit dictionary *)

Lemma swbit_index_of_snoc (tbl : list PC) (pc : PC) :
  swbit_index_of (tbl ++ [pc]) = <[sw_bit pc := index pc]> (swbit_index_of tbl).
Proof. unfold swbit_index_of. now rewrite foldl_app. Qed.

Lemma swbit_index_of_lookup (tbl : list PC) (bit : Z) :
  swbit_index_of tbl !! bit =
  index <$> last (filter (fun pc => sw_bit pc = bit) tbl).
Proof.
  induction tbl as [|pc tbl IH] using rev_ind; [reflexivity|].
  rewrite swbit_index_of_snoc, filter_app, filter_cons, filter_nil.
  destruct (decide (sw_bit pc = bit)) as [Heq|Hne].
  - rewrite last_snoc, Heq. apply lookup_insert_eq.
  - rewrite app_nil_r. now rewrite lookup_insert_ne.
Qed.

(** X11: the dictionary built from a table by the comprehension maps a
    switch bit to the index of the last entry of the table that uses this
    bit, and has no entry for a bit that no entry uses.  For the table of
    the program it sends the switch bit of every PC to the index of that
    PC, and every other number to nothing. *)
Theorem X11_swbit_to_index_lookup (tbl : list PC) (bit : Z) :
  swbit_index_of tbl !! bit =
    index <$> last (filter (fun pc => sw_bit pc = bit) tbl) /\
  ((forall pc, pc ∈ tbl -> sw_bit pc <> bit) -> swbit_index_of tbl !! bit = None) /\
  swbit_to_index = swbit_index_of pcs /\
  (forall pc, pc ∈ pcs -> swbit_to_index !! sw_bit pc = Some (index pc)) /\
  (bit < 0 \/ 7 < bit -> swbit_to_index !! bit = None).
Proof.
  assert ((forall pc, pc ∈ tbl -> sw_bit pc <> bit) ->
          swbit_index_of tbl !! bit = None) as Hnone.
  { intros Hno. rewrite swbit_index_of_lookup.
    destruct (last _) as [pc|] eqn:E; [|reflexivity].
    apply last_Some_elem_of, list_elem_of_filter in E as [Hb Hin].
    now destruct (Hno pc Hin). }
  split; [apply swbit_index_of_lookup|]. split; [exact Hnone|].
  split; [reflexivity|]. split.
  - intros pc Hin. each_pc Hin; reflexivity.
  - intros Hout. change swbit_to_index with (swbit_index_of pcs).
    rewrite swbit_index_of_lookup.
    destruct (last _) as [pc|] eqn:E; [|reflexivity].
    apply last_Some_elem_of, list_elem_of_filter in E as [Hb Hin].
    exfalso. clear - Hb Hin Hout. each_pc Hin; cbn in Hb; lia.
Qed.

Lemma X11_witness :
  (forall pc, pc ∈ [mkPC 0 7 0 "B" 3 "B" 0; mkPC 4 7 4 "A" 3 "A" 4] ->
              sw_bit pc <> 5) /\
  swbit_index_of [mkPC 0 7 0 "B" 3 "B" 0; mkPC 4 7 4 "A" 3 "A" 4] !! 5 = None /\
  swbit_index_of [mkPC 0 7 0 "B" 3 "B" 0; mkPC 4 7 4 "A" 3 "A" 4] !! 7 = Some 4.
Proof.
  assert (forall pc, pc ∈ [mkPC 0 7 0 "B" 3 "B" 0; mkPC 4 7 4 "A" 3 "A" 4] ->
                     sw_bit pc <> 5) as H.
  { intros pc Hin.
    repeat (apply elem_of_cons in Hin as [->|Hin]);
      [discriminate|discriminate|now apply elem_of_nil in Hin]. }
  split; [exact H|]. split.
  - exact (proj1 (proj2 (X11_swbit_to_index_lookup _ 5)) H).
  - reflexivity.
Defined.

(** ** The console *)

Lemma bind_ret_r {S} (m : M S unit) (s : S) : (m;; ret ()) s = m s.
Proof.
  unfold mbind, M_bind, bind, ret.
  destruct (m s) as [[e|[]] f t]; cbn [result final trace];
    [reflexivity|now rewrite app_nil_r].
Qed.

Lemma list_getitem_head {St A} (x : A) (l : list A) (s : St) :
  list_getitem (x :: l) 0 s = MkRun (inr x) s [].
Proof.
  unfold list_getitem. cbn [length].
  change (0 <? 0) with false. cbv iota.
  replace (Z.of_nat (S (length l)) <=? 0) with false
    by (symmetry; apply Z.leb_gt; lia).
  reflexivity.
Qed.

Lemma list_getitem_second {St A} (x y : A) (l : list A) (s : St) :
  list_getitem (x :: y :: l) 1 s = MkRun (inr y) s [].
Proof.
  unfold list_getitem. cbn [length].
  change (1 <? 0) with false. cbv iota.
  replace (Z.of_nat (S (S (length l))) <=? 1) with false
    by (symmetry; apply Z.leb_gt; lia).
  reflexivity.
Qed.

Lemma debug_print_status_run w : debug_print_status w = MkRun (inr ()) w [].
Proof. reflexivity. Qed.

Section ConsoleProofs.

Variable parse_int : string -> option Z.

(** What the [select] command does with its argument. *)
Lemma console_select_run (tok : string) (rest : list string) (w : Usb8Selector) :
  console_command parse_int ("select" :: tok :: rest) w =
  match parse_int tok with
  | Some n => if (0 <=? n) && (n <=? 7) then select_pc n w
              else MkRun (inr ()) w []
  | None => MkRun (inr ()) w []
  end.
Proof.
  unfold console_command.
  rewrite (run_bind_pure _ _ _ _ (list_getitem_head _ _ w)).
  cbn [String.eqb Ascii.eqb Bool.eqb andb length].
  replace (1 <? Z.of_nat (S (S (length rest)))) with true
    by (symmetry; apply Z.ltb_lt; lia).
  unfold try_except_ValueError.
  rewrite (run_bind_pure _ _ _ _ (list_getitem_second _ _ _ w)).
  unfold int. destruct (parse_int tok) as [n|].
  - rewrite (run_bind_pure _ _ w n) by reflexivity.
    destruct ((0 <=? n) && (n <=? 7)); [|reflexivity].
    change (print "selected") with (@ret Usb8Selector unit ()).
    rewrite bind_ret_r.
    destruct (select_pc_result n w) as (Hr & _). rewrite Hr.
    now destruct (select_pc n w).
  - reflexivity.
Qed.

Lemma console_cases (parts : list string) (w : Usb8Selector) :
  let r := console_command parse_int parts w in
  r = MkRun (inr ()) w [] \/
  (exists rest, parts = "disconnect" :: rest /\ r = disconnect w) \/
  (exists tok rest n, parts = "select" :: tok :: rest /\
     parse_int tok = Some n /\ 0 <= n <= 7 /\ r = select_pc n w).
Proof.
  cbv zeta. destruct parts as [|p0 rest]; [now left|].
  destruct (String.eqb_spec p0 "select") as [->|Hsel].
  - destruct rest as [|tok rest].
    + left. reflexivity.
    + rewrite console_select_run. destruct (parse_int tok) as [n|] eqn:E;
        [|now left].
      destruct ((0 <=? n) && (n <=? 7)) eqn:Er; [|now left].
      right. right. exists tok, rest, n.
      apply andb_true_iff in Er as [E0 E7].
      apply Z.leb_le in E0, E7. auto.
  - unfold console_command.
    rewrite (run_bind_pure _ _ _ _ (list_getitem_head _ _ w)).
    destruct (String.eqb p0 "help"); [now left|].
    destruct (String.eqb p0 "status"); [now left|].
    destruct (String.eqb_spec p0 "disconnect") as [->|Hd].
    + right. left. exists rest. split; [reflexivity|].
      change (print "disconnected") with (@ret Usb8Selector unit ()).
      apply bind_ret_r.
    + apply String.eqb_neq in Hsel. rewrite Hsel. now left.
Qed.

(** X12: a console command never lets an exception out and does one of
    three things: nothing at all to the state (empty line, [help],
    [status], an unknown word, [select] without a usable number),
    [disconnect] (first word [disconnect], whatever follows), or
    [select_pc n] for a number [n] in 0..7 (first word [select], second word
    a number, whatever follows).  So from a state the program can be in,
    every command ends in such a state. *)
Theorem X12_console_command (parts : list string) (w : Usb8Selector) :
  let r := console_command parse_int parts w in
  result r = inr () /\
  (r = MkRun (inr ()) w [] \/
   (exists rest, parts = "disconnect" :: rest /\ r = disconnect w) \/
   (exists tok rest n, parts = "select" :: tok :: rest /\
      parse_int tok = Some n /\ 0 <= n <= 7 /\ r = select_pc n w)) /\
  (reachable w -> reachable (final r)).
Proof.
  cbv zeta. pose proof (console_cases parts w) as Hc. cbv zeta in Hc.
  split; [|split; [exact Hc|]].
  - destruct Hc as [->|[(rest & _ & ->)|(tok & rest & n & _ & _ & _ & ->)]].
    + reflexivity.
    + apply disconnect_run.
    + apply select_pc_result.
  - intros Hre.
    destruct Hc as [->|[(rest & _ & ->)|(tok & rest & n & _ & _ & _ & ->)]].
    + exact Hre.
    + apply reach_disconnect; [exact Hre|apply disconnect_run].
    + apply reach_select; [exact Hre|apply select_pc_result].
Qed.

(** X13: the console cannot disconnect through [select].  A [select]
    command whose number is outside 0..7, or whose second word is no number
    (ValueError, caught), or that has no second word, leaves the state as
    it is without a single write, whereas [select_pc] called with a number
    outside 0..7 ends with nothing selected. *)
Theorem X13_console_select_out_of_range
    (tok : string) (rest : list string) (w : Usb8Selector) :
  (forall n, parse_int tok = Some n -> n < 0 \/ 7 < n ->
     console_command parse_int ("select" :: tok :: rest) w = MkRun (inr ()) w [] /\
     selected (final (select_pc n w)) = -1) /\
  (parse_int tok = None ->
     console_command parse_int ("select" :: tok :: rest) w = MkRun (inr ()) w []) /\
  console_command parse_int ["select"] w = MkRun (inr ()) w [].
Proof.
  split; [|split].
  - intros n Hn Hout. rewrite console_select_run, Hn.
    destruct (select_pc_result n w) as (_ & _ & _ & _ & ->).
    replace ((0 <=? n) && (n <=? 7)) with false; [now split|].
    symmetry. apply andb_false_iff.
    destruct Hout; [left; apply Z.leb_gt|right; apply Z.leb_gt]; lia.
  - intros Hn. now rewrite console_select_run, Hn.
  - reflexivity.
Qed.

End ConsoleProofs.

Lemma X12_witness :
  reachable booted /\
  reachable (final (console_command (fun _ => Some 2) ["select"; "2"] booted)).
Proof.
  assert (reachable booted) as H by (apply reach_init; vm_compute; reflexivity).
  exact (conj H (proj2 (proj2
           (X12_console_command (fun _ => Some 2) ["select"; "2"] booted)) H)).
Defined.

Lemma X13_witness :
  (fun _ : string => Some 9) "9" = Some 9 /\ (9 < 0 \/ 7 < 9) /\
  console_command (fun _ => Some 9) ["select"; "9"] pc3_selected =
  MkRun (inr ()) pc3_selected [].
Proof.
  assert ((fun _ : string => Some 9) "9" = Some 9) as H1 by reflexivity.
  assert (9 < 0 \/ 7 < 9) as H2 by (right; lia).
  exact (conj H1 (conj H2 (proj1 (proj1
           (X13_console_select_out_of_range (fun _ => Some 9) "9" [] pc3_selected)
           9 H1 H2)))).
Defined.
